(** * rhoas_kafka: the Kafka resource of the RHOAS Terraform provider

    A shallow embedding of [rhoas/kafka] (create, read, delete, the ACL
    loop and the two field mappers) and of [DefaultClient.KafkaAdmin],
    together with the pieces of the plugin SDK and of the Go library the
    code calls: the resource store [schema.ResourceData], the poller
    [resource.StateChangeConf] and a few [strings] functions.

    The remote services are deterministic and scripted: every reply is a
    function of the request and of the number of earlier calls of the same
    kind, and the calls made are recorded in a log. *)

From Stdlib Require Import DecimalString.
From stdpp Require Import gmap strings list fin_maps.

Set Warnings "-register-all".


(* ===================================================================== *)
(** * The Go library                                                      *)
(* ===================================================================== *)

Module strings.

(** [strings.ToUpper] on ASCII text: the letters a..z are moved to A..Z,
    every other byte is kept. *)
Definition upper_ascii (c : Ascii.ascii) : Ascii.ascii :=
  let n := Ascii.nat_of_ascii c in
  if (97 <=? n)%nat && (n <=? 122)%nat then Ascii.ascii_of_nat (n - 32) else c.

Fixpoint ToUpper (s : string) : string :=
  match s with
  | EmptyString => EmptyString
  | String c s' => String (upper_ascii c) (ToUpper s')
  end.

(** [strings.Contains s substr]. *)
Fixpoint Contains (s substr : string) : bool :=
  String.prefix substr s ||
  match s with
  | EmptyString => false
  | String _ s' => Contains s' substr
  end.

(** [strings.Join elems sep]. *)
Fixpoint Join (elems : list string) (sep : string) : string :=
  match elems with
  | [] => ""
  | [x] => x
  | x :: rest => x +:+ sep +:+ Join rest sep
  end.

(** [strconv.Itoa] on a natural number. *)
Definition Itoa (n : nat) : string := NilZero.string_of_uint (Nat.to_uint n).

End strings.

Definition string_eqb (a b : string) : bool := bool_decide (a = b).

(** [time.Duration], in whole seconds, and its [String] method. *)
Definition Duration := nat.

Definition Duration_String (d : Duration) : string :=
  let h := (d / 3600)%nat in
  let m := ((d / 60) mod 60)%nat in
  let s := (d mod 60)%nat in
  if (0 <? h)%nat then strings.Itoa h +:+ "h" +:+ strings.Itoa m +:+ "m" +:+ strings.Itoa s +:+ "s"
  else if (0 <? m)%nat then strings.Itoa m +:+ "m" +:+ strings.Itoa s +:+ "s"
  else strings.Itoa s +:+ "s".

(** [time.Time] as far as the resource looks at it: the code only ever
    formats a time with [time.RFC3339], so a time is kept as that text. *)
Record Time := { Format_RFC3339 : string }.

Definition zeroTime : Time := {| Format_RFC3339 := "0001-01-01T00:00:00Z" |}.

(* ===================================================================== *)
(** * Errors                                                              *)
(* ===================================================================== *)

(** The values of Go's [error] interface that travel through the resource.
    [GenericOpenAPIError] is the SDK's error of a failed request: its text
    is the HTTP status line and it may carry the code of the service's
    error body. The last three are the errors of the SDK's poller. *)
Inductive error : Type :=
  | errorString (text : string)
  | GenericOpenAPIError (status : string) (code : option string)
  | wrapError (e : error)
  | withMessage (msg : string) (cause : error)
  | TimeoutError (LastError : option error) (LastState : string)
                 (Timeout : Duration) (ExpectedState : list string)
  | UnexpectedStateError (LastError : option error) (State : string)
                         (ExpectedState : list string)
  | NotFoundError (LastError : option error) (Retries : nat).

(** [fmt.Sprintf "%s"] of an [error] that may be nil. *)
Definition show_nil : string := "%!s(<nil>)".

(** The [Error()] method. *)
Fixpoint Error (e : error) : string :=
  match e with
  | errorString text => text
  | GenericOpenAPIError status _ => status
  | wrapError e' => Error e'
  | withMessage msg cause => msg +:+ ": " +:+ Error cause
  | TimeoutError last lastState timeout expected =>
      let expectedState :=
        match expected with
        | [] => "resource to be gone"
        | _ => "state to become '" +:+ strings.Join expected ", " +:+ "'"
        end in
      let extraInfo : list string :=
        (if string_eqb lastState "" then [] else ["last state: '" +:+ lastState +:+ "'"])
          ++ (if (0 <? timeout)%nat then ["timeout: " +:+ Duration_String timeout] else []) in
      let suffix :=
        match extraInfo with
        | [] => ""
        | _ => " (" +:+ strings.Join extraInfo ", " +:+ ")"
        end in
      match last with
      | Some e' => "timeout while waiting for " +:+ expectedState +:+ suffix +:+ ": " +:+ Error e'
      | None => "timeout while waiting for " +:+ expectedState +:+ suffix
      end
  | UnexpectedStateError last state expected =>
      "unexpected state '" +:+ state +:+ "', wanted target '"
        +:+ strings.Join expected ", " +:+ "'. last error: "
        +:+ match last with Some e' => Error e' | None => show_nil end
  | NotFoundError _ retries =>
      if (0 <? retries)%nat
      then "couldn't find resource (" +:+ strings.Itoa retries +:+ " retries)"
      else "couldn't find resource"
  end.

(** [diag.Diagnostics]: every diagnostic the resource builds has error
    severity and the text of one error as its summary, so a diagnostic is
    kept as that error. *)
Definition Diagnostics := list error.

Module diag.
Definition FromErr (e : error) : Diagnostics := [e].
Definition Errorf (text : string) : Diagnostics := [errorString text].
End diag.

(* ===================================================================== *)
(** * Dynamic values and the resource store                               *)
(* ===================================================================== *)

(** Go's [interface{}] as the schema layer produces it. *)
Inductive Value : Type :=
  | VNil
  | VString (s : string)
  | VList (l : list Value)
  | VMap (m : gmap string Value).

Definition asString (v : Value) : option string :=
  match v with VString s => Some s | _ => None end.

Definition asList (v : Value) : option (list Value) :=
  match v with VList l => Some l | _ => None end.

Definition asMap (v : Value) : option (gmap string Value) :=
  match v with VMap m => Some m | _ => None end.

(** The fields of the resource, lines 20-34 of the source. *)
Definition CloudProviderField : string := "cloud_provider".
Definition RegionField : string := "region".
Definition NameField : string := "name".
Definition HrefField : string := "href".
Definition StatusField : string := "status".
Definition OwnerField : string := "owner".
Definition BootstrapServerHostField : string := "bootstrap_server_host".
Definition CreatedAtField : string := "created_at".
Definition UpdatedAtField : string := "updated_at".
Definition IDField : string := "id".
Definition KindField : string := "kind".
Definition VersionField : string := "version".
Definition ACLField : string := "acl".

Module schema.

Inductive ValueType := TypeString | TypeList.

(** [schema.Schema], as far as the store depends on it. *)
Record Schema := {
  Type_ : ValueType;
  Required : bool;
  Default : option Value
}.

Definition computed : Schema :=
  {| Type_ := TypeString; Required := false; Default := None |}.

(** The [Schema] map of [ResourceKafka], lines 45-121: provider and
    region have defaults, the name is required, nine strings are
    computed, and [acl] is an optional list of maps. *)
Definition ResourceKafka : gmap string Schema :=
  list_to_map
    [ (CloudProviderField,
       {| Type_ := TypeString; Required := false; Default := Some (VString "aws") |});
      (RegionField,
       {| Type_ := TypeString; Required := false; Default := Some (VString "us-east-1") |});
      (NameField, {| Type_ := TypeString; Required := true; Default := None |});
      (HrefField, computed); (StatusField, computed); (OwnerField, computed);
      (BootstrapServerHostField, computed); (CreatedAtField, computed);
      (UpdatedAtField, computed); (IDField, computed); (KindField, computed);
      (VersionField, computed);
      (ACLField, {| Type_ := TypeList; Required := false; Default := None |}) ].

(** [schema.ResourceData]: the identifier, the attribute values and the
    create timeout of the resource. *)
Record ResourceData := {
  id : string;
  attrs : gmap string Value;
  timeoutCreate : Duration
}.

Definition zeroValue (t : ValueType) : Value :=
  match t with TypeString => VString "" | TypeList => VList [] end.

Definition hasType (v : Value) (t : ValueType) : bool :=
  match v, t with
  | VString _, TypeString => true
  | VList _, TypeList => true
  | _, _ => false
  end.

Definition Id (d : ResourceData) : string := id d.

Definition SetId (v : string) (d : ResourceData) : ResourceData :=
  {| id := v; attrs := attrs d; timeoutCreate := timeoutCreate d |}.

(** [d.Get key]: nil for a key outside the schema; for a field without a
    value its default, or the zero value of its type. *)
Definition Get (key : string) (d : ResourceData) : Value :=
  match ResourceKafka !! key with
  | None => VNil
  | Some sch =>
      default (default (zeroValue (Type_ sch)) (Default sch)) (attrs d !! key)
  end.

(** [d.Set key value]: an error for a key outside the schema or a value
    of the wrong type, the store updated otherwise. *)
Definition Set_ (key : string) (v : Value) (d : ResourceData)
  : option error * ResourceData :=
  match ResourceKafka !! key with
  | None => (Some (errorString ("Invalid address to set: " +:+ key)), d)
  | Some sch =>
      if hasType v (Type_ sch)
      then (None, {| id := id d; attrs := <[key := v]> (attrs d);
                     timeoutCreate := timeoutCreate d |})
      else (Some (errorString (key +:+ ": value of the wrong type")), d)
  end.

(** [d.Timeout schema.TimeoutCreate]. *)
Definition Timeout (d : ResourceData) : Duration := timeoutCreate d.

(** [schema.DefaultTimeout (20 * time.Minute)], line 43. *)
Definition DefaultTimeoutCreate : Duration := 20 * 60.

(** The check the framework runs on a configuration before it calls
    create: every required field has a value. An empty string is a
    value. *)
Definition missingRequired (d : ResourceData) : list string :=
  (map_to_list (filter (λ kv, Required kv.2 = true ∧ attrs d !! kv.1 = None)
                       ResourceKafka)).*1.

End schema.

(* ===================================================================== *)
(** * The SDK's records                                                   *)
(* ===================================================================== *)

Module kafkamgmtclient.

(** [KafkaRequest]: the reference fields are plain strings, the others
    are pointers and read through getters that give the zero value for
    nil. *)
Record KafkaRequest := {
  Id : string;
  Kind : string;
  Href : string;
  Status : option string;
  CloudProvider : option string;
  Region : option string;
  Owner : option string;
  Name : option string;
  BootstrapServerHost : option string;
  AdminApiServerUrl : option string;
  CreatedAt : option Time;
  UpdatedAt : option Time;
  Version : option string
}.

Definition zero : KafkaRequest :=
  {| Id := ""; Kind := ""; Href := ""; Status := None; CloudProvider := None;
     Region := None; Owner := None; Name := None; BootstrapServerHost := None;
     AdminApiServerUrl := None; CreatedAt := None; UpdatedAt := None;
     Version := None |}.

Definition GetId (k : KafkaRequest) : string := Id k.
Definition GetKind (k : KafkaRequest) : string := Kind k.
Definition GetHref (k : KafkaRequest) : string := Href k.
Definition GetStatus (k : KafkaRequest) : string := default "" (Status k).
Definition GetCloudProvider (k : KafkaRequest) : string := default "" (CloudProvider k).
Definition GetRegion (k : KafkaRequest) : string := default "" (Region k).
Definition GetOwner (k : KafkaRequest) : string := default "" (Owner k).
Definition GetName (k : KafkaRequest) : string := default "" (Name k).
Definition GetBootstrapServerHost (k : KafkaRequest) : string :=
  default "" (BootstrapServerHost k).
Definition GetAdminApiServerUrl (k : KafkaRequest) : string :=
  default "" (AdminApiServerUrl k).
Definition GetCreatedAt (k : KafkaRequest) : Time := default zeroTime (CreatedAt k).
Definition GetUpdatedAt (k : KafkaRequest) : Time := default zeroTime (UpdatedAt k).
Definition GetVersion (k : KafkaRequest) : string := default "" (Version k).

(** [KafkaRequestPayload]: the name is required, provider and region are
    pointers. *)
Record KafkaRequestPayload := {
  payloadName : string;
  payloadCloudProvider : option string;
  payloadRegion : option string
}.

Definition NewKafkaRequestPayload (name : string) : KafkaRequestPayload :=
  {| payloadName := name; payloadCloudProvider := None; payloadRegion := None |}.

Definition SetCloudProvider (v : string) (p : KafkaRequestPayload) : KafkaRequestPayload :=
  {| payloadName := payloadName p; payloadCloudProvider := Some v;
     payloadRegion := payloadRegion p |}.

Definition SetRegion (v : string) (p : KafkaRequestPayload) : KafkaRequestPayload :=
  {| payloadName := payloadName p; payloadCloudProvider := payloadCloudProvider p;
     payloadRegion := Some v |}.

Definition payloadGetCloudProvider (p : KafkaRequestPayload) : string :=
  default "" (payloadCloudProvider p).
Definition payloadGetRegion (p : KafkaRequestPayload) : string :=
  default "" (payloadRegion p).

(** The [Error] body of a failed request, of which the resource reads
    the reason. *)
Record Error_ := { Reason : string }.

End kafkamgmtclient.

Module kafkainstanceclient.

(** [AclBinding], in the argument order of [NewAclBinding]. *)
Record AclBinding := {
  ResourceType : string;
  ResourceName : string;
  PatternType : string;
  Principal : string;
  Operation : string;
  Permission : string
}.

Definition NewAclBinding (resourceType resourceName patternType principal
                          operation permission : string) : AclBinding :=
  {| ResourceType := resourceType; ResourceName := resourceName;
     PatternType := patternType; Principal := principal;
     Operation := operation; Permission := permission |}.

(** The client of one instance's admin API. *)
Record APIClient := { BaseURL : string }.

End kafkainstanceclient.

Import kafkamgmtclient kafkainstanceclient.

(** [http.Response], handed on to the error translator only. *)
Record Response := { StatusCode : nat; Body : string }.

Module kafkamgmtv1errors.

Definition ERROR_7 : string := "KAFKAS-MGMT-7".

(** [IsAPIError err code]: [err] is a request error whose body carries
    [code]. *)
Definition IsAPIError (err : option error) (code : string) : bool :=
  match err with
  | Some (GenericOpenAPIError _ (Some c)) => string_eqb c code
  | _ => false
  end.

End kafkamgmtv1errors.

(* ===================================================================== *)
(** * The scripted services and the call log                              *)
(* ===================================================================== *)

(** One remote call. A [CallCreateAcl] records the admin URL, the binding
    sent and whether the service accepted it. *)
Inductive Call : Type :=
  | CallCreateKafka (payload : KafkaRequestPayload)
  | CallGetKafkaById (id : string)
  | CallDeleteKafkaById (id : string)
  | CallCreateAcl (baseURL : string) (binding : AclBinding) (accepted : bool).

(** The calls made so far, oldest first. *)
Definition World := list Call.

Definition isGet (c : Call) : bool :=
  match c with CallGetKafkaById _ => true | _ => false end.

Definition isCreateAcl (c : Call) : bool :=
  match c with CallCreateAcl _ _ _ => true | _ => false end.

Definition gets (w : World) : nat := length (List.filter isGet w).

Definition aclCalls (w : World) : nat := length (List.filter isCreateAcl w).

(** The bindings sent to the admin API, in the order sent. *)
Definition submitted (w : World) : list AclBinding :=
  omap (λ c, match c with CallCreateAcl _ b _ => Some b | _ => None end) w.

(** The bindings the admin API accepted, in the order sent. *)
Definition applied (w : World) : list AclBinding :=
  omap (λ c, match c with CallCreateAcl _ b true => Some b | _ => None end) w.

(** [kafkamgmtclient.DefaultApi]: the reply of the n-th [GetKafkaById]
    depends on n, so that a script of statuses can be played. *)
Record DefaultApi := {
  CreateKafkaExecute :
    KafkaRequestPayload → KafkaRequest * option Response * option error;
  GetKafkaByIdExecute :
    nat → string → KafkaRequest * option Response * option error;
  DeleteKafkaByIdExecute :
    string → Error_ * option Response * option error
}.

(** [rhoasAPI.Factory] with the services behind it: the management API,
    the ACL endpoint of the instance admin API (the reply to the n-th
    [CreateAcl]), the localizer, and the clock, which says how many
    refresh rounds of the poller complete within a duration. *)
Record Factory := {
  KafkaMgmt : DefaultApi;
  CreateAclExecute : nat → string → AclBinding → option Response * option error;
  MustLocalizeError : string → list (string * string) → error;
  rounds : Duration → nat
}.

(** The constants of the [acl] package. *)
Record AclPackage := {
  PrincipalPrefix : string;
  PrincipalField : string;
  ResourceTypeField : string;
  ResourceNameField : string;
  PatternTypeField : string;
  OperationTypeField : string;
  PermissionTypeField : string
}.

(** A Go call either returns or panics. *)
Inductive outcome (A : Type) : Type :=
  | Returned (a : A)
  | Panicked (msg : string).
Arguments Returned {A} a.
Arguments Panicked {A} msg.

(* ===================================================================== *)
(** * The SDK's poller                                                    *)
(* ===================================================================== *)

Module resource.

(** What [Refresh] returns: the object (nil or a [KafkaRequest]), the
    state and the error. *)
Record RefreshResult := {
  Result : option KafkaRequest;
  State : string;
  Err : option error
}.

Definition RefreshFunc := World → outcome RefreshResult * World.

(** [resource.StateChangeConf]. *)
Record StateChangeConf := {
  Delay : Duration;
  Pending : list string;
  Refresh : RefreshFunc;
  Target : list string;
  Timeout : Duration;
  MinTimeout : Duration;
  NotFoundChecks : nat;
  ContinuousTargetOccurence : nat
}.

Definition strIn (s : string) (l : list string) : bool :=
  existsb (string_eqb s) l.

(** The loop over [conf.Target]: every entry equal to the current state
    counts one occurrence, and the wait is done when the count reaches
    the occurrences asked for. Gives (done, found, targetOccurence). *)
Fixpoint scanTarget (target : list string) (currentState : string)
         (wanted : nat) (found : bool) (targetOccurence : nat)
  : bool * bool * nat :=
  match target with
  | [] => (false, found, targetOccurence)
  | allowed :: rest =>
      if string_eqb currentState allowed
      then
        let targetOccurence := S targetOccurence in
        if (wanted =? targetOccurence)%nat
        then (true, true, targetOccurence)
        else scanTarget rest currentState wanted true targetOccurence
      else scanTarget rest currentState wanted found targetOccurence
  end.

(** The loop over [conf.Pending]: a pending state is found and resets
    the occurrences. *)
Definition scanPending (pending : list string) (currentState : string)
           (found : bool) (targetOccurence : nat) : bool * nat :=
  if strIn currentState pending then (true, 0) else (found, targetOccurence).

(** The refresh loop of [WaitForStateContext], run for the [n] rounds
    that complete before the timeout fires. [last] is the last result
    seen, as the timeout error reports it. A round refreshes; an error
    of the refresh ends the wait with it; a nil object counts towards
    [NotFoundChecks]; otherwise the state is looked up in [Target], then
    in [Pending], and a state in neither ends the wait with an
    [UnexpectedStateError] when [Pending] is not empty. *)
Fixpoint refreshLoop (conf : StateChangeConf) (notFoundChecks wanted : nat)
         (n : nat) (notfoundTick targetOccurence : nat) (last : RefreshResult)
         (w : World) : outcome (option KafkaRequest * option error) * World :=
  match n with
  | 0 =>
      (Returned (None, Some (TimeoutError (Err last) (State last)
                                          (Timeout conf) (Target conf))), w)
  | S n' =>
      match Refresh conf w with
      | (Panicked msg, w') => (Panicked msg, w')
      | (Returned r, w') =>
          match Err r with
          | Some e => (Returned (Result r, Some e), w')
          | None =>
              match Result r with
              | None =>
                  if (length (Target conf) =? 0)%nat
                  then
                    let targetOccurence := S targetOccurence in
                    if (wanted =? targetOccurence)%nat
                    then (Returned (None, None), w')
                    else refreshLoop conf notFoundChecks wanted n'
                                     notfoundTick targetOccurence r w'
                  else
                    let notfoundTick := S notfoundTick in
                    if (notFoundChecks <? notfoundTick)%nat
                    then (Returned (None, Some (NotFoundError None notfoundTick)), w')
                    else refreshLoop conf notFoundChecks wanted n'
                                     notfoundTick targetOccurence r w'
              | Some _ =>
                  let '(done, found, targetOccurence) :=
                    scanTarget (Target conf) (State r) wanted false targetOccurence in
                  if done then (Returned (Result r, None), w')
                  else
                    let '(found, targetOccurence) :=
                      scanPending (Pending conf) (State r) found targetOccurence in
                    if negb found && (0 <? length (Pending conf))%nat
                    then (Returned (Result r,
                                    Some (UnexpectedStateError None (State r)
                                                               (Target conf))), w')
                    else refreshLoop conf notFoundChecks wanted n'
                                     0 targetOccurence r w'
              end
          end
      end
  end.

(** [conf.WaitForStateContext ctx]: zero [NotFoundChecks] means twenty
    and zero [ContinuousTargetOccurence] means one. The clock says how
    many rounds fit in [conf.Timeout]. *)
Definition WaitForStateContext (clock : Duration → nat) (conf : StateChangeConf)
           (w : World) : outcome (option KafkaRequest * option error) * World :=
  let notFoundChecks :=
    if (NotFoundChecks conf =? 0)%nat then 20 else NotFoundChecks conf in
  let wanted :=
    if (ContinuousTargetOccurence conf =? 0)%nat then 1
    else ContinuousTargetOccurence conf in
  refreshLoop conf notFoundChecks wanted (clock (Timeout conf)) 0 0
              {| Result := None; State := ""; Err := None |} w.

End resource.

(* ===================================================================== *)
(** * rhoas/clients: DefaultClient                                        *)
(* ===================================================================== *)

Definition dquote : string :=
  String (Ascii.Ascii false true false false false true false false) EmptyString.

Module clients.

Definition StatusAccepted : string := "accepted".
Definition StatusPreparing : string := "preparing".
Definition StatusProvisioning : string := "provisioning".
Definition StatusFailed : string := "failed".
Definition StatusDeprovision : string := "deprovision".
Definition StatusDeleting : string := "deleting".

Definition instanceError (name what : string) : error :=
  errorString ("Kafka instance " +:+ dquote +:+ name +:+ dquote +:+ what).

(** The decision of [KafkaAdmin] on the fetched record and the error of
    the fetch. *)
Definition resolveAdmin (kafkaInstance : KafkaRequest) (err : option error)
  : option APIClient * option KafkaRequest * option error :=
  if kafkamgmtv1errors.IsAPIError err kafkamgmtv1errors.ERROR_7
  then (None, None, wrapError <$> err)
  else
    let kafkaStatus := GetStatus kafkaInstance in
    if string_eqb kafkaStatus StatusProvisioning
       || string_eqb kafkaStatus StatusAccepted
    then (None, None, Some (instanceError (GetName kafkaInstance) " is not ready yet"))
    else if string_eqb kafkaStatus StatusFailed
    then (None, None, Some (instanceError (GetName kafkaInstance) " has failed"))
    else if string_eqb kafkaStatus StatusDeprovision
    then (None, None,
          Some (instanceError (GetName kafkaInstance) " is being deprovisioned"))
    else if string_eqb kafkaStatus StatusDeleting
    then (None, None, Some (instanceError (GetName kafkaInstance) " is being deleted"))
    else
      let bootstrapURL := GetBootstrapServerHost kafkaInstance in
      if string_eqb bootstrapURL ""
      then (None, None,
            Some (errorString ("bootstrap URL is missing for Kafka instance "
                                 +:+ dquote +:+ GetName kafkaInstance +:+ dquote)))
      else
        let apiURL := GetAdminApiServerUrl kafkaInstance in
        (Some {| BaseURL := apiURL |}, Some kafkaInstance, None).

(** [DefaultClient.KafkaAdmin]: fetch the instance, then decide. *)
Definition KafkaAdmin (factory : Factory) (instanceID : string) (w : World)
  : (option APIClient * option KafkaRequest * option error) * World :=
  let '(kafkaInstance, resp, err) :=
    GetKafkaByIdExecute (KafkaMgmt factory) (gets w) instanceID in
  (resolveAdmin kafkaInstance err, w ++ [CallGetKafkaById instanceID]).

End clients.

(* ===================================================================== *)
(** * rhoas/kafka: the resource                                           *)
(* ===================================================================== *)

Import schema resource.

Module kafka.

Section Resource.

(** [utils.GetAPIError], the error translator of the repository, whose
    source is not part of the files modelled here: a parameter. It gets
    the response and the error of a request and gives the error to
    report, or nil. *)
Variable GetAPIError : option Response → option error → option error.

(** The constants of the repository's [acl] package, parameters too. *)
Variable acl : AclPackage.

(** The factory [m]. *)
Variable factory : Factory.

Definition fieldNotFoundInSchema (field : string) : error :=
  MustLocalizeError factory "common.errors.fieldNotFoundInSchema" [("Field", field)].

Definition noAclFieldGiven (field : string) : error :=
  MustLocalizeError factory "kafka.errors.noAclFieldGiven" [("Field", field)].

(** ** mapResourceDataToKafkaPayload *)
Definition mapResourceDataToKafkaPayload (d : ResourceData)
  : option KafkaRequestPayload * option error :=
  match asString (Get CloudProviderField d) with
  | None => (None, Some (fieldNotFoundInSchema CloudProviderField))
  | Some cloudProvider =>
      match asString (Get RegionField d) with
      | None => (None, Some (fieldNotFoundInSchema RegionField))
      | Some region =>
          match asString (Get NameField d) with
          | None => (None, Some (fieldNotFoundInSchema NameField))
          | Some name =>
              let payload := NewKafkaRequestPayload name in
              let payload := SetCloudProvider cloudProvider payload in
              let payload := SetRegion region payload in
              (Some payload, None)
          end
      end
  end.

(** ** setResourceDataFromKafkaData *)

(** One [if err = d.Set(...); err != nil { return err }] step followed
    by the rest of the function. *)
Definition setThen (key : string) (v : string) (d : ResourceData)
           (rest : ResourceData → option error * ResourceData)
  : option error * ResourceData :=
  match Set_ key (VString v) d with
  | (Some err, d') => (Some err, d')
  | (None, d') => rest d'
  end.

Definition setResourceDataFromKafkaData (d : ResourceData) (kafka : KafkaRequest)
  : option error * ResourceData :=
  setThen CloudProviderField (GetCloudProvider kafka) d (λ d,
  setThen RegionField (GetRegion kafka) d (λ d,
  setThen NameField (GetName kafka) d (λ d,
  setThen HrefField (GetHref kafka) d (λ d,
  setThen StatusField (GetStatus kafka) d (λ d,
  setThen OwnerField (GetOwner kafka) d (λ d,
  setThen BootstrapServerHostField (GetBootstrapServerHost kafka) d (λ d,
  setThen CreatedAtField (Format_RFC3339 (GetCreatedAt kafka)) d (λ d,
  setThen UpdatedAtField (Format_RFC3339 (GetUpdatedAt kafka)) d (λ d,
  setThen IDField (GetId kafka) d (λ d,
  setThen KindField (GetKind kafka) d (λ d,
  setThen VersionField (GetVersion kafka) d (λ d,
  (None, d))))))))))))).

(** ** createACLForKafka *)

(** Lines 296-342: the binding of one element of the [acl] list, or the
    error of the first field that is missing or not a string. *)
Definition bindingOf (element : Value) : AclBinding + error :=
  match asMap element with
  | None => inr (MustLocalizeError factory "kafka.errors.unableToRetrieveAclContents" [])
  | Some element =>
      let field (key : string) : option string := element !! key ≫= asString in
      match field (PrincipalField acl) with
      | None => inr (noAclFieldGiven (PrincipalField acl))
      | Some principal =>
          let principal := PrincipalPrefix acl +:+ principal in
          match field (ResourceTypeField acl) with
          | None => inr (noAclFieldGiven (ResourceTypeField acl))
          | Some resourceType =>
          match field (ResourceNameField acl) with
          | None => inr (noAclFieldGiven (ResourceNameField acl))
          | Some resourceName =>
          match field (PatternTypeField acl) with
          | None => inr (noAclFieldGiven (PatternTypeField acl))
          | Some patternType =>
          match field (OperationTypeField acl) with
          | None => inr (noAclFieldGiven (OperationTypeField acl))
          | Some operationType =>
          match field (PermissionTypeField acl) with
          | None => inr (noAclFieldGiven (PermissionTypeField acl))
          | Some permissionType =>
              inl (NewAclBinding
                     (strings.ToUpper resourceType)
                     resourceName
                     (strings.ToUpper patternType)
                     principal
                     (strings.ToUpper operationType)
                     (strings.ToUpper permissionType))
          end end end end end
      end
  end.

(** Lines 344-352: resolve the admin client of the instance, then send
    the binding. A nil client that comes without an error would be
    dereferenced. *)
Definition submitBinding (kafka : KafkaRequest) (binding : AclBinding) (w : World)
  : outcome (option error) * World :=
  match clients.KafkaAdmin factory (GetId kafka) w with
  | (_, _, Some err, w) => (Returned (Some err), w)
  | (None, _, None, w) => (Panicked "nil pointer dereference", w)
  | (Some instanceAPI, _, None, w) =>
      let '(_, err) := CreateAclExecute factory (aclCalls w) (BaseURL instanceAPI) binding in
      (Returned err, w ++ [CallCreateAcl (BaseURL instanceAPI) binding
                                         (bool_decide (err = None))])
  end.

(** The loop of lines 295-353 over the elements of [aclConfig]. *)
Fixpoint aclLoop (kafka : KafkaRequest) (aclConfig : list Value) (w : World)
  : outcome (option error) * World :=
  match aclConfig with
  | [] => (Returned None, w)
  | element :: rest =>
      match bindingOf element with
      | inr err => (Returned (Some err), w)
      | inl binding =>
          match submitBinding kafka binding w with
          | (Returned None, w) => aclLoop kafka rest w
          | stop => stop
          end
      end
  end.

Definition createACLForKafka (d : ResourceData) (kafka : KafkaRequest) (w : World)
  : outcome (option error) * World :=
  match Get ACLField d with
  | VNil => (Returned None, w)
  | aclInput =>
      match asList aclInput with
      | None => (Returned (Some (fieldNotFoundInSchema ACLField)), w)
      | Some aclConfig => aclLoop kafka aclConfig w
      end
  end.

(** ** kafkaDelete *)

(** The [Refresh] closure of lines 152-163. [*data.Status] is a nil
    dereference when the record has no status. *)
Definition deleteRefresh (d : ResourceData) : RefreshFunc := λ w,
  let '(data, resp, err1) := GetKafkaByIdExecute (KafkaMgmt factory) (gets w) (schema.Id d) in
  let w := w ++ [CallGetKafkaById (schema.Id d)] in
  let finish : outcome RefreshResult :=
    match Status data with
    | Some status => Returned {| Result := Some data; State := status; Err := None |}
    | None => Panicked "nil pointer dereference"
    end in
  match err1 with
  | Some e1 =>
      if string_eqb (Error e1) "404 Not Found"
      then (Returned {| Result := Some data; State := "404"; Err := None |}, w)
      else
        match GetAPIError resp (Some e1) with
        | Some apiErr => (Returned {| Result := None; State := ""; Err := Some apiErr |}, w)
        | None => (finish, w)
        end
  | None => (finish, w)
  end.

Definition deleteStateConf (d : ResourceData) : StateChangeConf :=
  {| Delay := 5;
     Pending := ["deprovision"; "deleting"];
     Refresh := deleteRefresh d;
     Target := ["deleted"; "404"];
     Timeout := schema.Timeout d;
     MinTimeout := 5;
     NotFoundChecks := 0;
     ContinuousTargetOccurence := 0 |}.

Definition kafkaDelete (d : ResourceData) (w : World)
  : outcome Diagnostics * ResourceData * World :=
  let '(apiErr, _, err) := DeleteKafkaByIdExecute (KafkaMgmt factory) (schema.Id d) in
  let w := w ++ [CallDeleteKafkaById (schema.Id d)] in
  match err with
  | Some e =>
      if string_eqb (Error e) "404 "
      then (Returned [], SetId "" d, w)
      else if negb (string_eqb (Reason apiErr) "")
      then (Returned (diag.Errorf (Error e +:+ Reason apiErr)), d, w)
      else (Returned (diag.Errorf (Error e)), d, w)
  | None =>
      match WaitForStateContext (rounds factory) (deleteStateConf d) w with
      | (Panicked msg, w) => (Panicked msg, d, w)
      | (Returned (_, err), w) =>
          match err with
          | Some e =>
              if negb (strings.Contains (Error e) "not found")
              then (Returned (diag.FromErr
                      (withMessage ("Error waiting for example instance ("
                                      +:+ schema.Id d +:+ ") to be deleted") e)), d, w)
              else (Returned [], SetId "" d, w)
          | None => (Returned [], SetId "" d, w)
          end
      end
  end.

(** ** kafkaRead *)
Definition kafkaRead (d : ResourceData) (w : World)
  : Diagnostics * ResourceData * World :=
  let '(kafka, resp, err) := GetKafkaByIdExecute (KafkaMgmt factory) (gets w) (schema.Id d) in
  let w := w ++ [CallGetKafkaById (schema.Id d)] in
  match (match err with Some _ => GetAPIError resp err | None => None end) with
  | Some apiErr => (diag.FromErr apiErr, d, w)
  | None =>
      match setResourceDataFromKafkaData d kafka with
      | (Some err, d) => (diag.FromErr err, d, w)
      | (None, d) => ([], d, w)
      end
  end.

(** ** kafkaCreate *)

(** The [Refresh] closure of lines 238-247. [err] is the variable of
    the enclosing function, which holds the error of the create call
    while the poller runs; the error [err1] of the fetch is only
    compared with nil. *)
Definition createRefresh (kr : KafkaRequest) (err : option error) : RefreshFunc := λ w,
  let '(kafka, resp, err1) := GetKafkaByIdExecute (KafkaMgmt factory) (gets w) (kafkamgmtclient.Id kr) in
  let w := w ++ [CallGetKafkaById (kafkamgmtclient.Id kr)] in
  match (match err1 with Some _ => GetAPIError resp err | None => None end) with
  | Some apiErr => (Returned {| Result := None; State := ""; Err := Some apiErr |}, w)
  | None => (Returned {| Result := Some kafka; State := GetStatus kafka; Err := None |}, w)
  end.

Definition createStateConf (d : ResourceData) (kr : KafkaRequest) (err : option error)
  : StateChangeConf :=
  {| Delay := 5;
     Pending := ["accepted"; "preparing"; "provisioning"];
     Refresh := createRefresh kr err;
     Target := ["ready"];
     Timeout := schema.Timeout d;
     MinTimeout := 5;
     NotFoundChecks := 0;
     ContinuousTargetOccurence := 0 |}.

Definition kafkaCreate (d : ResourceData) (w : World)
  : outcome Diagnostics * ResourceData * World :=
  match mapResourceDataToKafkaPayload d with
  | (_, Some err) => (Returned (diag.FromErr err), d, w)
  | (None, None) => (Panicked "nil pointer dereference", d, w)
  | (Some requestPayload, None) =>
      let '(kr, resp, err) := CreateKafkaExecute (KafkaMgmt factory) requestPayload in
      let w := w ++ [CallCreateKafka requestPayload] in
      match (match err with Some _ => GetAPIError resp err | None => None end) with
      | Some apiErr => (Returned (diag.FromErr apiErr), d, w)
      | None =>
          let d := SetId (kafkamgmtclient.Id kr) d in
          match WaitForStateContext (rounds factory) (createStateConf d kr err) w with
          | (Panicked msg, w) => (Panicked msg, d, w)
          | (Returned (_, Some err), w) => (Returned (diag.FromErr err), d, w)
          | (Returned (None, None), w) =>
              (Returned (diag.Errorf
                 "Cannot cast data from kafka creation to to map[string]interface{}"), d, w)
          | (Returned (Some kafka, None), w) =>
              match setResourceDataFromKafkaData d kafka with
              | (Some err, d) => (Returned (diag.FromErr err), d, w)
              | (None, d) =>
                  (* now that kafka is created define the acl *)
                  match createACLForKafka d kafka w with
                  | (Panicked msg, w) => (Panicked msg, d, w)
                  | (Returned (Some err), w) => (Returned (diag.FromErr err), d, w)
                  | (Returned None, w) => (Returned [], d, w)
                  end
              end
          end
      end
  end.

End Resource.

End kafka.

(* ===================================================================== *)
(** * Scripts: concrete services to run the resource against              *)
(* ===================================================================== *)

Module Script.

Definition aclPackage : AclPackage :=
  {| PrincipalPrefix := "User:";
     PrincipalField := "principal";
     ResourceTypeField := "resource_type";
     ResourceNameField := "resource_name";
     PatternTypeField := "pattern_type";
     OperationTypeField := "operation_type";
     PermissionTypeField := "permission_type" |}.

(** A translator that reports every error with the body of the
    response, and nothing when there is no error. *)
Definition translate (resp : option Response) (err : option error) : option error :=
  match err with
  | Some e => Some (errorString (Error e +:+ default "" (Body <$> resp)))
  | None => None
  end.

(** The instance [id] in state [status]. *)
Definition instance (id status : string) : KafkaRequest :=
  {| kafkamgmtclient.Id := id; Kind := "Kafka";
     Href := "/api/kafkas_mgmt/v1/kafkas/" +:+ id;
     Status := Some status; CloudProvider := Some "aws";
     Region := Some "us-east-1"; Owner := Some "owner"; Name := Some "foo";
     BootstrapServerHost := Some "foo.kafka.example:443";
     AdminApiServerUrl := Some "https://admin.foo.kafka.example";
     CreatedAt := Some {| Format_RFC3339 := "2022-05-01T10:00:00Z" |};
     UpdatedAt := Some {| Format_RFC3339 := "2022-05-01T10:05:00Z" |};
     Version := Some "3.0.1" |}.

Definition notFound : Response := {| StatusCode := 404; Body := " not found" |}.

(** One scripted reply to a fetch: the instance in a state, or a
    failure with the given status line. *)
Inductive reply := found (status : string) | gone (statusLine : string).

(** The reply to the [n]-th fetch. Past its end the script repeats its
    last reply, and an empty script finds the instance ready. *)
Definition fetch (script : list reply) (n : nat) (id : string)
  : KafkaRequest * option Response * option error :=
  match default (List.last script (found "ready")) (script !! n) with
  | found status => (instance id status, None, None)
  | gone statusLine =>
      (kafkamgmtclient.zero, Some notFound,
       Some (GenericOpenAPIError statusLine (Some "KAFKAS-MGMT-7")))
  end.

(** Services that create the instance "k1", answer fetches from
    [script], delete with the reply [deleted], accept every binding
    except the [failing]-th, and let [n] refresh rounds fit in any
    timeout. *)
Definition services (script : list reply)
           (deleted : Error_ * option Response * option error)
           (failing : option nat) (n : nat) : Factory :=
  {| KafkaMgmt :=
       {| CreateKafkaExecute := λ payload, (instance "k1" "accepted", None, None);
          GetKafkaByIdExecute := fetch script;
          DeleteKafkaByIdExecute := λ id, deleted |};
     CreateAclExecute := λ i url binding,
       if bool_decide (failing = Some i)
       then (None, Some (GenericOpenAPIError "400 Bad Request" None))
       else (None, None);
     MustLocalizeError := λ key entries,
       errorString (key +:+ strings.Join (entries.*2) ",");
     rounds := λ _, n |}.

Definition deleteAccepted : Error_ * option Response * option error :=
  ({| Reason := "" |}, None, None).

Definition deleteGone : Error_ * option Response * option error :=
  ({| Reason := "" |}, Some notFound, Some (GenericOpenAPIError "404 " None)).

(** A configuration with the given name and ACL list. *)
Definition config (name : string) (aclList : list Value) : ResourceData :=
  {| id := "";
     attrs := {[ NameField := VString name; ACLField := VList aclList ]};
     timeoutCreate := DefaultTimeoutCreate |}.

(** The state of the created instance "k1". *)
Definition created : ResourceData :=
  {| id := "k1"; attrs := {[ NameField := VString "foo" ]};
     timeoutCreate := DefaultTimeoutCreate |}.

Definition rule (principal resourceName : string) : Value :=
  VMap (list_to_map
          [ ("principal", VString principal);
            ("resource_type", VString "topic");
            ("resource_name", VString resourceName);
            ("pattern_type", VString "literal");
            ("operation_type", VString "all");
            ("permission_type", VString "allow") ]).

Definition binding (principal resourceName : string) : AclBinding :=
  NewAclBinding "TOPIC" resourceName "LITERAL" ("User:" +:+ principal) "ALL" "ALLOW".

End Script.

(* ===================================================================== *)
(** * Predicates of the specification                                     *)
(* ===================================================================== *)

(** The instance is in one of the states in which [KafkaAdmin] gives no
    client, or it has no bootstrap host. *)
Definition notReady (k : KafkaRequest) : Prop :=
  GetStatus k ∈ [clients.StatusAccepted; clients.StatusProvisioning;
                 clients.StatusFailed; clients.StatusDeprovision;
                 clients.StatusDeleting]
  ∨ GetBootstrapServerHost k = "".

Definition isStringField (key : string) : bool :=
  match ResourceKafka !! key with
  | Some sch => hasType (VString "") (Type_ sch)
  | None => false
  end.

Definition withAttr (key : string) (v : Value) (d : ResourceData) : ResourceData :=
  {| id := id d; attrs := <[key := v]> (attrs d); timeoutCreate := timeoutCreate d |}.

Definition refreshed (response : KafkaRequest) : outcome RefreshResult :=
  Returned {| Result := Some response; State := GetStatus response; Err := None |}.

Definition hardError (apiErr : error) : outcome RefreshResult :=
  Returned {| Result := None; State := ""; Err := Some apiErr |}.

(** A refresh function that fetches the instance [id] once per call: its
    result is [script n] when [n] fetches were made before. *)
Definition counting (f : RefreshFunc) (id : string)
           (script : nat → outcome RefreshResult) : Prop :=
  ∀ w, f w = (script (gets w), w ++ [CallGetKafkaById id]).

(** A round that finds an object in a pending state. *)
Definition pendingRound (conf : StateChangeConf) (r : outcome RefreshResult) : Prop :=
  ∃ res, r = Returned res ∧ Err res = None ∧ is_Some (Result res)
         ∧ strIn (State res) (Pending conf) = true
         ∧ strIn (State res) (Target conf) = false.

(** The fetches a poller makes in [k] rounds. *)
Definition fetches (id : string) (k : nat) : World := replicate k (CallGetKafkaById id).

(** The result of the [n]-th refresh of the create path. *)
Definition createScript (GetAPIError : option Response → option error → option error)
           (factory : Factory) (kr : KafkaRequest) (err : option error) (n : nat)
  : outcome RefreshResult :=
  let '(response, resp, err1) :=
    GetKafkaByIdExecute (KafkaMgmt factory) n (kafkamgmtclient.Id kr) in
  match (match err1 with Some _ => GetAPIError resp err | None => None end) with
  | Some apiErr => hardError apiErr
  | None => refreshed response
  end.

(** The fetches number [g] to [g + k - 1] of the instance [id] succeed
    and find it in one of the states [states]. *)
Definition fetchesFind (factory : Factory) (id : string) (states : list string)
           (g k : nat) : Prop :=
  ∀ i, i < k →
    ∃ response resp,
      GetKafkaByIdExecute (KafkaMgmt factory) (g + i) id = (response, resp, None)
      ∧ GetStatus response ∈ states.

(** The claim C1 as the specification words it: create polls until the
    timeout and fails with the timeout error. *)
Definition pollsUntilTimeout
           (GetAPIError : option Response → option error → option error)
           (acl : AclPackage) (factory : Factory) (d : ResourceData) (w : World) : Prop :=
  ∃ lastState,
    (kafka.kafkaCreate GetAPIError acl factory d w).1.1
    = Returned [TimeoutError None lastState (schema.Timeout d) ["ready"]]
    ∧ gets (kafka.kafkaCreate GetAPIError acl factory d w).2
      = gets w + rounds factory (schema.Timeout d).

(** The claim C4 as the specification words it: no fetch that fits in the
    timeout finds the instance ready, and create fails with a timeout
    error. *)
Definition neverReady (factory : Factory) (id : string) (g n : nat) : Prop :=
  ∀ i, i < n →
    GetStatus (GetKafkaByIdExecute (KafkaMgmt factory) (g + i) id).1.1 ≠ "ready".

Definition failsWithTimeout
           (GetAPIError : option Response → option error → option error)
           (acl : AclPackage) (factory : Factory) (d : ResourceData) (w : World) : Prop :=
  ∃ lastState,
    (kafka.kafkaCreate GetAPIError acl factory d w).1.1
    = Returned [TimeoutError None lastState (schema.Timeout d) ["ready"]].

Definition fooPayload : KafkaRequestPayload :=
  {| payloadName := "foo"; payloadCloudProvider := Some "aws";
     payloadRegion := Some "us-east-1" |}.

(** Three rules, of which the services refuse the second. *)
Definition threeRules : list Value :=
  [Script.rule "alice" "orders"; Script.rule "bob" "payments";
   Script.rule "carol" "audit"].


Definition secondRefused : Factory :=
  Script.services [] Script.deleteAccepted (Some 1) 3.

(** A store in which [name] holds a list. *)
Definition nameIsAList : ResourceData :=
  {| id := ""; attrs := {[ NameField := VList [] ]};
     timeoutCreate := DefaultTimeoutCreate |}.

Definition emptyNamePayload : KafkaRequestPayload :=
  {| payloadName := ""; payloadCloudProvider := Some "aws";
     payloadRegion := Some "us-east-1" |}.

(** The result of the [n]-th refresh of the delete path. *)
Definition deleteScript (GetAPIError : option Response → option error → option error)
           (factory : Factory) (d : ResourceData) (n : nat) : outcome RefreshResult :=
  (kafka.deleteRefresh GetAPIError factory d (fetches (schema.Id d) n)).1.

Definition deleting : ResourceData := Script.created.

(* ===================================================================== *)
(** * rhoas/tests: the checks of the acceptance tests                     *)
(* ===================================================================== *)

Module terraform.

(** [terraform.ResourceState], of which the checks read the type and the
    identifier of the primary instance. *)
Record ResourceState := {
  Type_rs : string;
  PrimaryID : string
}.

End terraform.

Module kafkas.

Import terraform.

Section Checks.

(** [utils.GetAPIError], a parameter as in the resource. *)
Variable GetAPIError : option Response → option error → option error.

(** How [fmt] prints a fetched record with the verb v. *)
Variable formatV : KafkaRequest → string.

(** The management API behind the provider under test (the cast of the
    provider's meta value to the clients is taken to succeed). *)
Variable api : DefaultApi.

Definition expected404 (response : KafkaRequest) : error :=
  errorString ("expected a 404 but found a kafka instance: " +:+ formatV response).

(** [testAccCheckKafkaDestroy], lines 129-157, over the resources of the
    root module in the order in which the range over the map visits
    them. The body of the loop returns for the first resource of type
    rhoas_kafka. *)
Fixpoint testAccCheckKafkaDestroy (resources : list ResourceState) (w : World)
  : option error * World :=
  match resources with
  | [] => (None, w)
  | rs :: rest =>
      if negb (string_eqb (Type_rs rs) "rhoas_kafka")
      then testAccCheckKafkaDestroy rest w
      else
        let '(response, resp, err) := GetKafkaByIdExecute api (gets w) (PrimaryID rs) in
        let w := w ++ [CallGetKafkaById (PrimaryID rs)] in
        match err with
        | Some e =>
            if string_eqb (Error e) "404 Not Found"
            then (None, w)
            else
              match GetAPIError resp err with
              | Some apiErr => (Some apiErr, w)
              | None => (Some (expected404 response), w)
              end
        | None => (Some (expected404 response), w)
        end
  end.

(** [testAccCheckKafkaExists resource], lines 159-186, applied to the
    resources of the root module. [*kafka.Status] is a nil dereference
    for a record without a status. *)
Definition testAccCheckKafkaExists (resource : string)
           (resources : gmap string ResourceState) (w : World)
  : outcome (option error) * World :=
  match resources !! resource with
  | None => (Returned (Some (errorString ("Not found: " +:+ resource))), w)
  | Some rs =>
      if string_eqb (PrimaryID rs) ""
      then (Returned (Some (errorString "No Record ID is set")), w)
      else
        let '(response, resp, err) := GetKafkaByIdExecute api (gets w) (PrimaryID rs) in
        let w := w ++ [CallGetKafkaById (PrimaryID rs)] in
        match (match err with Some _ => GetAPIError resp err | None => None end) with
        | Some apiErr => (Returned (Some apiErr), w)
        | None =>
            match Status response with
            | None => (Panicked "nil pointer dereference", w)
            | Some status =>
                if negb (string_eqb status "ready")
                then (Returned (Some (errorString
                        ("error provisioning kafka. Status is " +:+ status))), w)
                else (Returned None, w)
            end
        end
  end.

End Checks.

End kafkas.

(** The twelve fields written by hydration. *)
Definition hydratedFields : list string :=
  [CloudProviderField; RegionField; NameField; HrefField; StatusField; OwnerField;
   BootstrapServerHostField; CreatedAtField; UpdatedAtField; IDField; KindField;
   VersionField].

(** The value hydration stores in a field. *)
Definition responseField (response : KafkaRequest) (key : string) : option string :=
  if string_eqb key CloudProviderField then Some (GetCloudProvider response)
  else if string_eqb key RegionField then Some (GetRegion response)
  else if string_eqb key NameField then Some (GetName response)
  else if string_eqb key HrefField then Some (GetHref response)
  else if string_eqb key StatusField then Some (GetStatus response)
  else if string_eqb key OwnerField then Some (GetOwner response)
  else if string_eqb key BootstrapServerHostField then Some (GetBootstrapServerHost response)
  else if string_eqb key CreatedAtField then Some (Format_RFC3339 (GetCreatedAt response))
  else if string_eqb key UpdatedAtField then Some (Format_RFC3339 (GetUpdatedAt response))
  else if string_eqb key IDField then Some (GetId response)
  else if string_eqb key KindField then Some (GetKind response)
  else if string_eqb key VersionField then Some (GetVersion response)
  else None.

(** The six fields of a rule, in the order in which [createACLForKafka]
    reads them. *)
Definition ruleFields (acl : AclPackage) : list string :=
  [PrincipalField acl; ResourceTypeField acl; ResourceNameField acl;
   PatternTypeField acl; OperationTypeField acl; PermissionTypeField acl].

(** A rule in which a field is missing or is not a string. *)
Definition lacksField (acl : AclPackage) (m : gmap string Value) : Prop :=
  ∃ key, key ∈ ruleFields acl ∧ m !! key ≫= asString = None.

(** Resources of another type than the Kafka resource. *)
Definition otherType (rs : terraform.ResourceState) : Prop :=
  terraform.Type_rs rs ≠ "rhoas_kafka".

(** A store whose values have the types of the schema, as every store
    built by the framework has. *)
Definition wellTyped (d : ResourceData) : Prop :=
  ∀ key v sch,
    attrs d !! key = Some v → ResourceKafka !! key = Some sch →
    hasType v (Type_ sch) = true.

(** The store after hydration from a response. *)
Definition hydrate (d : ResourceData) (response : KafkaRequest) : ResourceData :=
  (kafka.setResourceDataFromKafkaData d response).2.

(** Services whose create call is refused. *)
Definition createRefused : Factory :=
  {| KafkaMgmt :=
       {| CreateKafkaExecute := λ payload,
            (kafkamgmtclient.zero, Some {| StatusCode := 400; Body := " name is taken" |},
             Some (GenericOpenAPIError "400 Bad Request" None));
          GetKafkaByIdExecute := Script.fetch [];
          DeleteKafkaByIdExecute := λ id, Script.deleteAccepted |};
     CreateAclExecute := λ i url binding, (None, None);
     MustLocalizeError := λ key entries, errorString key;
     rounds := λ _, 3 |}.

(** A delete request refused for another reason than absence. *)
Definition deleteForbidden : Error_ * option Response * option error :=
  ({| Reason := " not the owner" |}, None, Some (GenericOpenAPIError "403 Forbidden" None)).

(** A fetch that succeeds with a record that has no status. *)
Definition noStatus : Factory :=
  {| KafkaMgmt :=
       {| CreateKafkaExecute := λ payload, (Script.instance "k1" "accepted", None, None);
          GetKafkaByIdExecute := λ n id, (kafkamgmtclient.zero, None, None);
          DeleteKafkaByIdExecute := λ id, Script.deleteAccepted |};
     CreateAclExecute := λ i url binding, (None, None);
     MustLocalizeError := λ key entries, errorString key;
     rounds := λ _, 3 |}.

(** The state of a test run: one Kafka resource after two others. *)
Definition testResources : list terraform.ResourceState :=
  [ {| terraform.Type_rs := "rhoas_service_account"; terraform.PrimaryID := "sa1" |};
    {| terraform.Type_rs := "rhoas_topic"; terraform.PrimaryID := "t1" |};
    {| terraform.Type_rs := "rhoas_kafka"; terraform.PrimaryID := "k1" |};
    {| terraform.Type_rs := "rhoas_kafka"; terraform.PrimaryID := "k2" |} ].

Definition testState : gmap string terraform.ResourceState :=
  {[ "rhoas_kafka.test_kafka" :=
       {| terraform.Type_rs := "rhoas_kafka"; terraform.PrimaryID := "k1" |} ]}.

(** How the tests print a record: by its identifier. *)
Definition showId (k : KafkaRequest) : string := kafkamgmtclient.Id k.

(** A rule without a permission type. *)
Definition ruleWithoutPermission : gmap string Value :=
  list_to_map
    [ ("principal", VString "bob");
      ("resource_type", VString "topic");
      ("resource_name", VString "payments");
      ("pattern_type", VString "literal");
      ("operation_type", VString "all") ].

Definition rulesWithABadOne : list Value :=
  [Script.rule "alice" "orders"; VMap ruleWithoutPermission; Script.rule "carol" "audit"].

(** Services that accept every binding. *)
Definition allAccepted : Factory := Script.services [] Script.deleteAccepted None 3.




(** A delete request answered with the not-found text of the fetches. *)
Definition deleteNotFoundText : Error_ * option Response * option error :=
  ({| Reason := "" |}, Some Script.notFound,
   Some (GenericOpenAPIError "404 Not Found" (Some "KAFKAS-MGMT-7"))).

(** A rule without a resource name and without a permission type. *)
Definition ruleWithoutTwo : gmap string Value :=
  list_to_map
    [ ("principal", VString "bob");
      ("resource_type", VString "topic");
      ("pattern_type", VString "literal");
      ("operation_type", VString "all") ].

(* ===================================================================== *)
(** * Tactics                                                             *)
(* ===================================================================== *)

Ltac in_list := repeat first [apply list_elem_of_here | apply list_elem_of_further].

Ltac decided :=
  match goal with |- ?P => apply (bool_decide_unpack P); vm_compute; exact I end.

Ltac fetches_found :=
  let i := fresh "i" in
  let Hi := fresh "Hi" in
  intros i Hi; vm_compute in Hi;
  repeat (destruct i as [|i]; [do 2 eexists; split; [reflexivity|decided]|try lia]).

(* ===================================================================== *)
(** * The Go library, checked on examples                                 *)
(* ===================================================================== *)

Example ToUpper_topic : strings.ToUpper "topic-1" = "TOPIC-1".
Proof. reflexivity. Qed.

Example Contains_ex : strings.Contains "kafka not found here" "not found" = true.
Proof. reflexivity. Qed.

Example Duration_20m : Duration_String 1200 = "20m0s".
Proof. reflexivity. Qed.

(* ===================================================================== *)
(** * KafkaAdmin                                                          *)
(* ===================================================================== *)

Lemma string_eqb_true (a b : string) : string_eqb a b = true ↔ a = b.
Proof. unfold string_eqb. apply bool_decide_eq_true. Qed.

Lemma string_eqb_false (a b : string) : string_eqb a b = false ↔ a ≠ b.
Proof. unfold string_eqb. apply bool_decide_eq_false. Qed.

Lemma IsAPIError_is_error err code :
  kafkamgmtv1errors.IsAPIError err code = true → err ≠ None.
Proof. destruct err; [discriminate | discriminate]. Qed.

(** The decision of [KafkaAdmin]: no client and an error for a record
    that is not ready, and a client only for a ready one. *)
Lemma resolveAdmin_spec (k : KafkaRequest) (err : option error) :
  (notReady k → (clients.resolveAdmin k err).1.1 = None
                ∧ (clients.resolveAdmin k err).2 ≠ None)
  ∧ ((clients.resolveAdmin k err).1.1 ≠ None →
     ¬ notReady k ∧ (clients.resolveAdmin k err).2 = None).
Proof.
  unfold clients.resolveAdmin, notReady.
  destruct (kafkamgmtv1errors.IsAPIError err _) eqn:Hapi.
  { apply IsAPIError_is_error in Hapi. destruct err; [|done]. simpl. split; [done|done]. }
  destruct (string_eqb (GetStatus k) clients.StatusProvisioning) eqn:E1; simpl.
  { split; [done|done]. }
  destruct (string_eqb (GetStatus k) clients.StatusAccepted) eqn:E2; simpl.
  { split; [done|done]. }
  destruct (string_eqb (GetStatus k) clients.StatusFailed) eqn:E3; simpl.
  { split; [done|done]. }
  destruct (string_eqb (GetStatus k) clients.StatusDeprovision) eqn:E4; simpl.
  { split; [done|done]. }
  destruct (string_eqb (GetStatus k) clients.StatusDeleting) eqn:E5; simpl.
  { split; [done|done]. }
  destruct (string_eqb (GetBootstrapServerHost k) "") eqn:E6; simpl.
  { split; [done|done]. }
  apply string_eqb_false in E1, E2, E3, E4, E5, E6.
  split.
  - intros [Hin | Hb]; [|done].
    repeat (apply elem_of_cons in Hin as [Hin | Hin]; [congruence|]).
    by apply elem_of_nil in Hin.
  - intros _. split; [|done].
    intros [Hin | Hb]; [|done].
    repeat (apply elem_of_cons in Hin as [Hin | Hin]; [congruence|]).
    by apply elem_of_nil in Hin.
Qed.

(** C10. For every fetched instance record, [KafkaAdmin] returns a nil
    client and a non-nil error whenever the status of the instance is
    accepted, provisioning, failed, deprovision or deleting, or its
    bootstrap server host is empty; a client is returned only when none
    of these holds (and then without an error). *)
Theorem KafkaAdmin_client_only_when_ready
        (factory : Factory) (instanceID : string) (w : World) :
  let kafkaInstance := (GetKafkaByIdExecute (KafkaMgmt factory) (gets w) instanceID).1.1 in
  let result := (clients.KafkaAdmin factory instanceID w).1 in
  (notReady kafkaInstance → result.1.1 = None ∧ result.2 ≠ None)
  ∧ (result.1.1 ≠ None → ¬ notReady kafkaInstance ∧ result.2 = None).
Proof.
  unfold clients.KafkaAdmin.
  destruct (GetKafkaByIdExecute _ _ _) as [[k resp] err]. simpl.
  apply resolveAdmin_spec.
Qed.

(** A provisioning instance gets no client; a ready one does. *)
Lemma KafkaAdmin_client_only_when_ready_witness :
  ((clients.KafkaAdmin (Script.services [Script.found "provisioning"] Script.deleteAccepted None 3)
                       "k1" []).1.1.1 = None)
  ∧ ((clients.KafkaAdmin (Script.services [Script.found "ready"] Script.deleteAccepted None 3)
                         "k1" []).1.2 = None).
Proof.
  split.
  - apply (KafkaAdmin_client_only_when_ready
             (Script.services [Script.found "provisioning"] Script.deleteAccepted None 3) "k1" []).
    left. apply elem_of_cons. right. apply elem_of_cons. by left.
  - apply (KafkaAdmin_client_only_when_ready
             (Script.services [Script.found "ready"] Script.deleteAccepted None 3) "k1" []).
    vm_compute. discriminate.
Defined.

(* ===================================================================== *)
(** * The field mappers                                                   *)
(* ===================================================================== *)

Lemma Set_string (key v : string) (d : ResourceData) :
  isStringField key = true →
  Set_ key (VString v) d = (None, withAttr key (VString v) d).
Proof.
  unfold isStringField, Set_. destruct (ResourceKafka !! key) as [sch|]; [|done].
  simpl. intros ->. done.
Qed.

Lemma setThen_string (key v : string) (d : ResourceData) rest :
  isStringField key = true →
  kafka.setThen key v d rest = rest (withAttr key (VString v) d).
Proof. intros H. unfold kafka.setThen. by rewrite Set_string. Qed.

Lemma Get_present (key : string) (v : Value) (d : ResourceData) :
  is_Some (ResourceKafka !! key) → attrs d !! key = Some v → Get key d = v.
Proof. intros [sch Hs] Hv. unfold Get. by rewrite Hs, Hv. Qed.

(** Hydration writes the twelve fields and cannot fail. *)
Lemma setResourceDataFromKafkaData_ok (d : ResourceData) (response : KafkaRequest) :
  kafka.setResourceDataFromKafkaData d response =
  (None,
   withAttr VersionField (VString (GetVersion response))
  (withAttr KindField (VString (GetKind response))
  (withAttr IDField (VString (GetId response))
  (withAttr UpdatedAtField (VString (Format_RFC3339 (GetUpdatedAt response)))
  (withAttr CreatedAtField (VString (Format_RFC3339 (GetCreatedAt response)))
  (withAttr BootstrapServerHostField (VString (GetBootstrapServerHost response))
  (withAttr OwnerField (VString (GetOwner response))
  (withAttr StatusField (VString (GetStatus response))
  (withAttr HrefField (VString (GetHref response))
  (withAttr NameField (VString (GetName response))
  (withAttr RegionField (VString (GetRegion response))
  (withAttr CloudProviderField (VString (GetCloudProvider response)) d)))))))))))).
Proof.
  unfold kafka.setResourceDataFromKafkaData.
  repeat (rewrite setThen_string; [|reflexivity]).
  reflexivity.
Qed.

Lemma setResourceDataFromKafkaData_id (d : ResourceData) (response : KafkaRequest) :
  Id (kafka.setResourceDataFromKafkaData d response).2 = Id d.
Proof. by rewrite setResourceDataFromKafkaData_ok. Qed.

(** C7. For every remote instance response, hydrating the local record
    from it and then mapping that record to a create payload gives back
    the name, the cloud provider and the region of the response. *)
Theorem hydrate_then_payload_roundtrip
        (factory : Factory) (d : ResourceData) (response : KafkaRequest) :
  ∃ d' payload,
    kafka.setResourceDataFromKafkaData d response = (None, d')
    ∧ kafka.mapResourceDataToKafkaPayload factory d' = (Some payload, None)
    ∧ payloadName payload = GetName response
    ∧ payloadGetCloudProvider payload = GetCloudProvider response
    ∧ payloadGetRegion payload = GetRegion response.
Proof.
  eexists. eexists. split; [apply setResourceDataFromKafkaData_ok|].
  unfold kafka.mapResourceDataToKafkaPayload.
  rewrite (Get_present CloudProviderField (VString (GetCloudProvider response)));
    [|by eexists|by simpl; simplify_map_eq].
  rewrite (Get_present RegionField (VString (GetRegion response)));
    [|by eexists|by simpl; simplify_map_eq].
  rewrite (Get_present NameField (VString (GetName response)));
    [|by eexists|by simpl; simplify_map_eq].
  simpl. done.
Qed.

(** C6, as the code has it. For every ACL binding specification, before
    transmission the principal is prefixed with the fixed principal tag
    and the resource type, the name-pattern type, the operation type and
    the permission type are put in upper case; the resource name is sent
    as it was given. *)
Theorem bindingOf_prefixes_and_upper_cases
        (acl : AclPackage) (factory : Factory) (m : gmap string Value)
        (principal resourceType resourceName patternType operationType
         permissionType : string) :
  m !! PrincipalField acl = Some (VString principal) →
  m !! ResourceTypeField acl = Some (VString resourceType) →
  m !! ResourceNameField acl = Some (VString resourceName) →
  m !! PatternTypeField acl = Some (VString patternType) →
  m !! OperationTypeField acl = Some (VString operationType) →
  m !! PermissionTypeField acl = Some (VString permissionType) →
  kafka.bindingOf acl factory (VMap m) =
  inl {| ResourceType := strings.ToUpper resourceType;
         ResourceName := resourceName;
         PatternType := strings.ToUpper patternType;
         Principal := PrincipalPrefix acl +:+ principal;
         Operation := strings.ToUpper operationType;
         Permission := strings.ToUpper permissionType |}.
Proof.
  intros H1 H2 H3 H4 H5 H6. unfold kafka.bindingOf. simpl.
  rewrite H1, H2, H3, H4, H5, H6. reflexivity.
Qed.

Lemma bindingOf_prefixes_and_upper_cases_witness :
  kafka.bindingOf Script.aclPackage
                  (Script.services [] Script.deleteAccepted None 3)
                  (Script.rule "alice" "orders")
  = inl (Script.binding "alice" "orders").
Proof.
  apply (bindingOf_prefixes_and_upper_cases
           Script.aclPackage (Script.services [] Script.deleteAccepted None 3)
           _ "alice" "topic" "orders" "literal" "all" "allow"); reflexivity.
Defined.

(** C6 as stated fails on the resource name: the rule for the topic
    "orders" is sent with the name "orders", which is not its upper-case
    form. *)
Lemma resource_name_is_not_upper_cased :
  kafka.bindingOf Script.aclPackage
                  (Script.services [] Script.deleteAccepted None 3)
                  (Script.rule "alice" "orders")
  = inl (Script.binding "alice" "orders")
  ∧ ResourceName (Script.binding "alice" "orders") = "orders"
  ∧ strings.ToUpper "orders" = "ORDERS"
  ∧ ResourceName (Script.binding "alice" "orders") ≠ strings.ToUpper "orders".
Proof.
  split; [reflexivity|]. split; [reflexivity|]. split; [reflexivity|discriminate].
Qed.

(* ===================================================================== *)
(** * kafkaRead                                                           *)
(* ===================================================================== *)

(** C8. For every read in which the fetch by identifier reports an error
    (the resource no longer exists) that the translator turns into a
    domain error, the read returns that error to the caller and leaves
    the local state as it was, the identifier included. *)
Theorem kafkaRead_surfaces_error_and_keeps_state
        (GetAPIError : option Response → option error → option error)
        (factory : Factory) (d : ResourceData) (w : World)
        (response : KafkaRequest) (resp : option Response) (err apiErr : error) :
  GetKafkaByIdExecute (KafkaMgmt factory) (gets w) (Id d) = (response, resp, Some err) →
  GetAPIError resp (Some err) = Some apiErr →
  kafka.kafkaRead GetAPIError factory d w
  = (diag.FromErr apiErr, d, w ++ [CallGetKafkaById (Id d)]).
Proof.
  intros Hfetch Htr. unfold kafka.kafkaRead. rewrite Hfetch, Htr. reflexivity.
Qed.

Lemma kafkaRead_surfaces_error_and_keeps_state_witness :
  kafka.kafkaRead Script.translate
                  (Script.services [Script.gone "404 Not Found"] Script.deleteAccepted None 3)
                  Script.created []
  = (diag.FromErr (errorString "404 Not Found not found"), Script.created,
     [CallGetKafkaById "k1"]).
Proof.
  apply (kafkaRead_surfaces_error_and_keeps_state
           Script.translate (Script.services [Script.gone "404 Not Found"] Script.deleteAccepted None 3)
           Script.created [] kafkamgmtclient.zero (Some Script.notFound)
           (GenericOpenAPIError "404 Not Found" (Some "KAFKAS-MGMT-7")));
    reflexivity.
Defined.

(* ===================================================================== *)
(** * The refresh function of kafkaCreate                                 *)
(* ===================================================================== *)

(** C9. In the refresh function of the create path a hard error is
    produced exactly when the fetch failed and the translator, applied to
    the response of the fetch and the error of the ORIGINAL create call,
    gives an error; the error of the fetch itself is only compared with
    nil. So when the create call succeeded and the translator gives nil
    for a nil error, a failing fetch is no hard error: the refresh
    reports the status of the fetched (possibly zero) record. *)
Theorem createRefresh_translates_the_create_error
        (GetAPIError : option Response → option error → option error)
        (factory : Factory) (kr : KafkaRequest) (err : option error) (w : World)
        (response : KafkaRequest) (resp : option Response) (err1 : option error) :
  GetKafkaByIdExecute (KafkaMgmt factory) (gets w) (kafkamgmtclient.Id kr)
  = (response, resp, err1) →
  let r := (kafka.createRefresh GetAPIError factory kr err w).1 in
  (∀ apiErr, r = hardError apiErr ↔ err1 ≠ None ∧ GetAPIError resp err = Some apiErr)
  ∧ (err1 = None ∨ GetAPIError resp err = None → r = refreshed response)
  ∧ (err = None → GetAPIError resp None = None → r = refreshed response).
Proof.
  intros Hfetch. unfold kafka.createRefresh. rewrite Hfetch. simpl.
  destruct err1 as [e1|]; simpl.
  - destruct (GetAPIError resp err) as [apiErr|] eqn:Htr; simpl.
    + split; [|split].
      * intros a. unfold hardError. split.
        -- intros [= ->]. done.
        -- intros [_ [= ->]]. done.
      * intros [|]; done.
      * intros -> Hnil. congruence.
    + split; [|split]; [|done|done].
      intros a. unfold hardError. split; [done|]. intros [_ ?]. done.
  - split; [|split]; [|done|done].
    intros a. unfold hardError. split; [done|]. intros [? _]. done.
Qed.

(** The create call succeeded, the fetch fails with a 404: the refresh
    reports the empty status of the zero record without an error. *)
Lemma createRefresh_translates_the_create_error_witness :
  (kafka.createRefresh Script.translate
                       (Script.services [Script.gone "404 Not Found"] Script.deleteAccepted None 3)
                       (Script.instance "k1" "accepted") None []).1
  = refreshed kafkamgmtclient.zero.
Proof.
  apply (createRefresh_translates_the_create_error
           Script.translate (Script.services [Script.gone "404 Not Found"] Script.deleteAccepted None 3)
           (Script.instance "k1" "accepted") None [] kafkamgmtclient.zero
           (Some Script.notFound)
           (Some (GenericOpenAPIError "404 Not Found" (Some "KAFKAS-MGMT-7"))));
    reflexivity.
Defined.

(* ===================================================================== *)
(** * The poller                                                          *)
(* ===================================================================== *)

Lemma gets_app (w1 w2 : World) : gets (w1 ++ w2) = gets w1 + gets w2.
Proof. unfold gets. by rewrite List.filter_app, length_app. Qed.

Lemma gets_fetches (id : string) (k : nat) : gets (fetches id k) = k.
Proof.
  induction k as [|k IH]; [done|].
  change (fetches id (S k)) with ([CallGetKafkaById id] ++ fetches id k).
  rewrite gets_app, IH. done.
Qed.

Lemma fetches_snoc (w : World) (id : string) (k : nat) :
  (w ++ [CallGetKafkaById id]) ++ fetches id k = w ++ fetches id (S k).
Proof. by rewrite <- app_assoc. Qed.

Lemma fetches_S_r (id : string) (k : nat) :
  fetches id (S k) = fetches id k ++ [CallGetKafkaById id].
Proof. unfold fetches. by rewrite replicate_S_end. Qed.

Lemma scanTarget_miss target s wanted found occ :
  strIn s target = false →
  scanTarget target s wanted found occ = (false, found, occ).
Proof.
  induction target as [|a rest IH]; [done|].
  simpl. intros H. apply orb_false_iff in H as [Ha Hrest].
  rewrite Ha. by apply IH.
Qed.

Lemma scanTarget_hit target s found :
  strIn s target = true →
  scanTarget target s 1 found 0 = (true, true, 1).
Proof.
  revert found. induction target as [|a rest IH]; [done|].
  simpl. intros found H. destruct (string_eqb s a) eqn:Ha; [done|].
  simpl in H. by apply IH.
Qed.

Section Poller.

Variable conf : StateChangeConf.
Variable id : string.
Variable script : nat → outcome RefreshResult.
Hypothesis Hcount : counting (Refresh conf) id script.

(** [k] pending rounds leave the loop where it was, [k] fetches later. *)
Lemma refreshLoop_pending (nfc k m : nat) :
  ∀ (tick : nat) (last : RefreshResult) (w : World),
    (∀ i, i < k → pendingRound conf (script (gets w + i))) →
    Err last = None →
    ∃ tick' last',
      Err last' = None
      ∧ refreshLoop conf nfc 1 (k + m) tick 0 last w
        = refreshLoop conf nfc 1 m tick' 0 last' (w ++ fetches id k).
Proof.
  induction k as [|k IH]; intros tick last w Hpend Hlast.
  - exists tick, last. split; [done|]. simpl. by rewrite app_nil_r.
  - destruct (Hpend 0) as (res & Hres & Herr & [obj Hobj] & Hp & Ht); [lia|].
    rewrite Nat.add_0_r in Hres.
    destruct (IH 0 res (w ++ [CallGetKafkaById id])) as (tick' & last' & Hl & Heq).
    { intros i Hi. rewrite gets_app. change (gets [CallGetKafkaById id]) with 1.
      replace (gets w + 1 + i) with (gets w + S i) by lia. apply Hpend. lia. }
    { done. }
    exists tick', last'. split; [done|].
    change (S k + m) with (S (k + m)). cbn [refreshLoop].
    rewrite Hcount, Hres, Herr, Hobj.
    rewrite (scanTarget_miss _ _ _ _ _ Ht).
    unfold scanPending. rewrite Hp. simpl.
    rewrite Heq. by rewrite fetches_snoc.
Qed.

(** Pending rounds up to the timeout: a timeout error without a last
    error. *)
Lemma refreshLoop_timeout (nfc k : nat) (last : RefreshResult) (w : World) :
  (∀ i, i < k → pendingRound conf (script (gets w + i))) →
  Err last = None →
  ∃ lastState,
    refreshLoop conf nfc 1 k 0 0 last w
    = (Returned (None, Some (TimeoutError None lastState (Timeout conf) (Target conf))),
       w ++ fetches id k).
Proof.
  intros Hpend Hlast.
  destruct (refreshLoop_pending nfc k 0 0 last w Hpend Hlast) as (tick' & last' & Hl & Heq).
  rewrite Nat.add_0_r in Heq. rewrite Heq. simpl. rewrite Hl. by eexists.
Qed.

(** Pending rounds, then an object in a state that is neither pending
    nor a target while there are pending states: the wait ends at once
    with an unexpected-state error. *)
Lemma refreshLoop_unexpected (nfc k m : nat) (last res : RefreshResult) (w : World) :
  (∀ i, i < k → pendingRound conf (script (gets w + i))) →
  Err last = None →
  script (gets w + k) = Returned res →
  Err res = None → is_Some (Result res) →
  strIn (State res) (Pending conf) = false →
  strIn (State res) (Target conf) = false →
  Pending conf ≠ [] →
  refreshLoop conf nfc 1 (k + S m) 0 0 last w
  = (Returned (Result res,
               Some (UnexpectedStateError None (State res) (Target conf))),
     w ++ fetches id (S k)).
Proof.
  intros Hpend Hlast Hres Herr [obj Hobj] Hp Ht Hne.
  destruct (refreshLoop_pending nfc k (S m) 0 last w Hpend Hlast)
    as (tick' & last' & Hl & Heq).
  rewrite Heq. cbn [refreshLoop].
  rewrite Hcount, gets_app, gets_fetches, Hres, Herr, Hobj.
  rewrite (scanTarget_miss _ _ _ _ _ Ht).
  unfold scanPending. rewrite Hp. simpl.
  destruct (Pending conf); [done|]. simpl.
  by rewrite <- app_assoc, <- fetches_S_r.
Qed.

(** Pending rounds, then an object in a target state: the wait ends
    with that object. *)
Lemma refreshLoop_target (nfc k m : nat) (last res : RefreshResult) (w : World) :
  (∀ i, i < k → pendingRound conf (script (gets w + i))) →
  Err last = None →
  script (gets w + k) = Returned res →
  Err res = None → is_Some (Result res) →
  strIn (State res) (Target conf) = true →
  refreshLoop conf nfc 1 (k + S m) 0 0 last w
  = (Returned (Result res, None), w ++ fetches id (S k)).
Proof.
  intros Hpend Hlast Hres Herr [obj Hobj] Ht.
  destruct (refreshLoop_pending nfc k (S m) 0 last w Hpend Hlast)
    as (tick' & last' & Hl & Heq).
  rewrite Heq. cbn [refreshLoop].
  rewrite Hcount, gets_app, gets_fetches, Hres, Herr, Hobj.
  rewrite (scanTarget_hit _ _ _ Ht). simpl.
  by rewrite <- app_assoc, <- fetches_S_r.
Qed.

(** Pending rounds, then a refresh that fails: the wait ends with the
    error of the refresh. *)
Lemma refreshLoop_error (nfc k m : nat) (last res : RefreshResult) (e : error)
      (w : World) :
  (∀ i, i < k → pendingRound conf (script (gets w + i))) →
  Err last = None →
  script (gets w + k) = Returned res →
  Err res = Some e →
  refreshLoop conf nfc 1 (k + S m) 0 0 last w
  = (Returned (Result res, Some e), w ++ fetches id (S k)).
Proof.
  intros Hpend Hlast Hres Herr.
  destruct (refreshLoop_pending nfc k (S m) 0 last w Hpend Hlast)
    as (tick' & last' & Hl & Heq).
  rewrite Heq. cbn [refreshLoop].
  rewrite Hcount, gets_app, gets_fetches, Hres, Herr.
  by rewrite <- app_assoc, <- fetches_S_r.
Qed.

(** The poller only adds calls to the log. *)
Lemma refreshLoop_extends (nfc wanted n : nat) :
  ∀ tick occ last w,
    w `prefix_of` (refreshLoop conf nfc wanted n tick occ last w).2.
Proof.
  induction n as [|n IH]; intros tick occ last w; [done|].
  cbn [refreshLoop]. rewrite Hcount.
  assert (Hstep : w `prefix_of` w ++ [CallGetKafkaById id]) by apply prefix_app_r, reflexivity.
  destruct (script (gets w)) as [r|msg]; [|done].
  destruct (Err r); [done|].
  destruct (Result r).
  - destruct (scanTarget _ _ _ _ _) as [[done found] occ'].
    destruct done; [done|].
    destruct (scanPending _ _ _ _) as [found' occ''].
    destruct (negb found' && _); [done|].
    etrans; [exact Hstep|apply IH].
  - destruct (length (Target conf) =? 0).
    + destruct (wanted =? S occ); [done|]. etrans; [exact Hstep|apply IH].
    + destruct (nfc <? S tick); [done|]. etrans; [exact Hstep|apply IH].
Qed.

End Poller.

(* ===================================================================== *)
(** * kafkaCreate                                                         *)
(* ===================================================================== *)

Lemma strIn_true (s : string) (l : list string) : strIn s l = true ↔ s ∈ l.
Proof.
  unfold strIn. rewrite existsb_exists. split.
  - intros (x & Hin & Heq). apply string_eqb_true in Heq as ->.
    by apply list_elem_of_In.
  - intros Hin. exists s. split; [by apply list_elem_of_In|by apply string_eqb_true].
Qed.

Lemma strIn_false (s : string) (l : list string) : strIn s l = false ↔ s ∉ l.
Proof.
  rewrite <- strIn_true. destruct (strIn s l); split; done.
Qed.

Section Create.

Variable GetAPIError : option Response → option error → option error.
Variable acl : AclPackage.
Variable factory : Factory.

Lemma createRefresh_counting (kr : KafkaRequest) (err : option error) :
  counting (kafka.createRefresh GetAPIError factory kr err) (kafkamgmtclient.Id kr)
           (createScript GetAPIError factory kr err).
Proof.
  intros w. unfold kafka.createRefresh, createScript.
  destruct (GetKafkaByIdExecute _ _ _) as [[response resp] err1].
  by destruct (match err1 with Some _ => _ | None => _ end).
Qed.

Lemma createScript_pending (d : ResourceData) (kr : KafkaRequest) (err : option error)
      (g k : nat) :
  fetchesFind factory (kafkamgmtclient.Id kr) ["accepted"; "preparing"; "provisioning"] g k →
  ∀ i, i < k →
    pendingRound (kafka.createStateConf GetAPIError factory d kr err)
                 (createScript GetAPIError factory kr err (g + i)).
Proof.
  intros Hf i Hi. destruct (Hf i Hi) as (response & resp & Hfetch & Hst).
  exists {| Result := Some response; State := GetStatus response; Err := None |}.
  unfold createScript. rewrite Hfetch.
  split; [done|]. split; [done|]. split; [by eexists|].
  split; [by apply strIn_true|].
  apply strIn_false. intros Hready. apply list_elem_of_singleton in Hready.
  cbn [State] in Hready. rewrite Hready in Hst.
  repeat (apply elem_of_cons in Hst as [Hst | Hst]; [discriminate|]).
  by apply elem_of_nil in Hst.
Qed.

Lemma createWait_unfold (d : ResourceData) (kr : KafkaRequest) (err : option error)
      (w : World) :
  WaitForStateContext (rounds factory)
    (kafka.createStateConf GetAPIError factory (SetId (kafkamgmtclient.Id kr) d) kr err) w
  = refreshLoop
      (kafka.createStateConf GetAPIError factory (SetId (kafkamgmtclient.Id kr) d) kr err)
      20 1 (rounds factory (schema.Timeout d)) 0 0
      {| Result := None; State := ""; Err := None |} w.
Proof. reflexivity. Qed.

(** However the wait fails, create returns the error of the wait and
    the identifier recorded after the create call stays. *)
Lemma kafkaCreate_wait_error (d : ResourceData) (w w' : World)
      (payload : KafkaRequestPayload) (kr : KafkaRequest) (resp : option Response)
      (err : option error) (data : option KafkaRequest) (e : error) :
  kafka.mapResourceDataToKafkaPayload factory d = (Some payload, None) →
  CreateKafkaExecute (KafkaMgmt factory) payload = (kr, resp, err) →
  match err with Some _ => GetAPIError resp err | None => None end = None →
  WaitForStateContext (rounds factory)
    (kafka.createStateConf GetAPIError factory (SetId (kafkamgmtclient.Id kr) d) kr err)
    (w ++ [CallCreateKafka payload]) = (Returned (data, Some e), w') →
  kafka.kafkaCreate GetAPIError acl factory d w
  = (Returned (diag.FromErr e), SetId (kafkamgmtclient.Id kr) d, w').
Proof.
  intros Hmap Hcreate Htr Hwait. unfold kafka.kafkaCreate.
  rewrite Hmap, Hcreate, Htr, Hwait. by destruct data.
Qed.

(** C4, as the code has it. For every create in which the create call
    succeeds and every refresh up to the timeout finds the instance in a
    pending status (so that it never gets ready in time), create fails
    with the timeout error of the poller, and the identifier recorded
    after the create call is still set. *)
Theorem kafkaCreate_timeout_keeps_id (d : ResourceData) (w : World)
        (payload : KafkaRequestPayload) (kr : KafkaRequest) (resp : option Response) :
  kafka.mapResourceDataToKafkaPayload factory d = (Some payload, None) →
  CreateKafkaExecute (KafkaMgmt factory) payload = (kr, resp, None) →
  fetchesFind factory (kafkamgmtclient.Id kr) ["accepted"; "preparing"; "provisioning"]
              (gets w) (rounds factory (schema.Timeout d)) →
  ∃ lastState,
    kafka.kafkaCreate GetAPIError acl factory d w
    = (Returned [TimeoutError None lastState (schema.Timeout d) ["ready"]],
       SetId (kafkamgmtclient.Id kr) d,
       w ++ [CallCreateKafka payload]
         ++ fetches (kafkamgmtclient.Id kr) (rounds factory (schema.Timeout d)))
    ∧ Id (kafka.kafkaCreate GetAPIError acl factory d w).1.2 = kafkamgmtclient.Id kr.
Proof.
  intros Hmap Hcreate Hf.
  set (d' := SetId (kafkamgmtclient.Id kr) d).
  set (conf := kafka.createStateConf GetAPIError factory d' kr None).
  destruct (refreshLoop_timeout conf _ _ (createRefresh_counting kr None) 20
              (rounds factory (schema.Timeout d))
              {| Result := None; State := ""; Err := None |}
              (w ++ [CallCreateKafka payload])) as [lastState Hloop].
  { rewrite gets_app. change (gets [CallCreateKafka payload]) with 0.
    rewrite Nat.add_0_r. by apply createScript_pending. }
  { done. }
  exists lastState.
  assert (Hrun : kafka.kafkaCreate GetAPIError acl factory d w
    = (Returned [TimeoutError None lastState (schema.Timeout d) ["ready"]], d',
       w ++ [CallCreateKafka payload]
         ++ fetches (kafkamgmtclient.Id kr) (rounds factory (schema.Timeout d)))).
  { rewrite app_assoc.
    eapply (kafkaCreate_wait_error d w _ payload kr resp None None); [done..|].
    unfold WaitForStateContext. exact Hloop. }
  split; [exact Hrun|]. by rewrite Hrun.
Qed.

(** C1, as the code has it. During the polling of create, a status that
    is neither pending (accepted, preparing, provisioning) nor the
    target (ready), such as failed, ends the polling at once: the poller
    gives an unexpected-state error that names the status, no further
    fetch is made however much of the timeout is left, and create fails
    with that error. Only pending statuses keep the loop polling. *)
Theorem kafkaCreate_fails_fast_on_unexpected_status
        (d : ResourceData) (w : World) (payload : KafkaRequestPayload)
        (kr : KafkaRequest) (resp : option Response) (k : nat)
        (response : KafkaRequest) (resp' : option Response) :
  kafka.mapResourceDataToKafkaPayload factory d = (Some payload, None) →
  CreateKafkaExecute (KafkaMgmt factory) payload = (kr, resp, None) →
  fetchesFind factory (kafkamgmtclient.Id kr) ["accepted"; "preparing"; "provisioning"]
              (gets w) k →
  GetKafkaByIdExecute (KafkaMgmt factory) (gets w + k) (kafkamgmtclient.Id kr)
  = (response, resp', None) →
  GetStatus response ∉ ["accepted"; "preparing"; "provisioning"] →
  GetStatus response ∉ ["ready"] →
  k < rounds factory (schema.Timeout d) →
  kafka.kafkaCreate GetAPIError acl factory d w
  = (Returned [UnexpectedStateError None (GetStatus response) ["ready"]],
     SetId (kafkamgmtclient.Id kr) d,
     w ++ [CallCreateKafka payload] ++ fetches (kafkamgmtclient.Id kr) (S k)).
Proof.
  intros Hmap Hcreate Hf Hfetch Hnp Hnt Hk.
  set (d' := SetId (kafkamgmtclient.Id kr) d).
  set (conf := kafka.createStateConf GetAPIError factory d' kr None).
  rewrite app_assoc.
  eapply (kafkaCreate_wait_error d w _ payload kr resp None (Some response)); [done..|].
  rewrite createWait_unfold.
  replace (rounds factory (schema.Timeout d))
    with (k + S (rounds factory (schema.Timeout d) - S k)) by lia.
  apply (refreshLoop_unexpected conf _ _ (createRefresh_counting kr None) 20 k _
           _ {| Result := Some response; State := GetStatus response; Err := None |}).
  - rewrite gets_app. change (gets [CallCreateKafka payload]) with 0.
    rewrite Nat.add_0_r. by apply createScript_pending.
  - done.
  - rewrite gets_app. change (gets [CallCreateKafka payload]) with 0.
    rewrite Nat.add_0_r. unfold createScript. by rewrite Hfetch.
  - done.
  - by eexists.
  - by apply strIn_false.
  - by apply strIn_false.
  - done.
Qed.

End Create.

Lemma kafkaCreate_timeout_keeps_id_witness :
  ∃ lastState,
    kafka.kafkaCreate Script.translate Script.aclPackage
      (Script.services [Script.found "accepted"; Script.found "provisioning";
                        Script.found "provisioning"] Script.deleteAccepted None 3)
      (Script.config "foo" []) []
    = (Returned [TimeoutError None lastState DefaultTimeoutCreate ["ready"]],
       SetId "k1" (Script.config "foo" []),
       [CallCreateKafka fooPayload] ++ fetches "k1" 3)
    ∧ Id (kafka.kafkaCreate Script.translate Script.aclPackage
            (Script.services [Script.found "accepted"; Script.found "provisioning";
                              Script.found "provisioning"] Script.deleteAccepted None 3)
            (Script.config "foo" []) []).1.2 = "k1".
Proof.
  apply (kafkaCreate_timeout_keeps_id Script.translate Script.aclPackage
           (Script.services [Script.found "accepted"; Script.found "provisioning";
                             Script.found "provisioning"] Script.deleteAccepted None 3)
           (Script.config "foo" []) [] fooPayload (Script.instance "k1" "accepted") None).
  - reflexivity.
  - reflexivity.
  - fetches_found.
Defined.

Lemma kafkaCreate_fails_fast_on_unexpected_status_witness :
  kafka.kafkaCreate Script.translate Script.aclPackage
    (Script.services [Script.found "provisioning"; Script.found "failed"]
                     Script.deleteAccepted None 240)
    (Script.config "foo" []) []
  = (Returned [UnexpectedStateError None "failed" ["ready"]],
     SetId "k1" (Script.config "foo" []),
     [CallCreateKafka fooPayload] ++ fetches "k1" 2).
Proof.
  apply (kafkaCreate_fails_fast_on_unexpected_status
           Script.translate Script.aclPackage
           (Script.services [Script.found "provisioning"; Script.found "failed"]
                            Script.deleteAccepted None 240)
           (Script.config "foo" []) [] fooPayload (Script.instance "k1" "accepted") None
           1 (Script.instance "k1" "failed") None).
  - reflexivity.
  - reflexivity.
  - fetches_found.
  - reflexivity.
  - decided.
  - decided.
  - vm_compute. lia.
Defined.

(** C4 as stated fails on the kind of error: the create call succeeds
    and no fetch within the timeout finds the instance ready, yet create
    does not fail with a timeout error, because the second fetch finds
    the instance failed. The identifier stays set. *)
Lemma never_ready_need_not_time_out :
  let factory := Script.services [Script.found "accepted"; Script.found "failed"]
                                 Script.deleteAccepted None 240 in
  let run := kafka.kafkaCreate Script.translate Script.aclPackage factory
                               (Script.config "foo" []) [] in
  CreateKafkaExecute (KafkaMgmt factory) fooPayload
  = (Script.instance "k1" "accepted", None, None)
  ∧ neverReady factory "k1" 0 (rounds factory (schema.Timeout (Script.config "foo" [])))
  ∧ run.1.1 = Returned [UnexpectedStateError None "failed" ["ready"]]
  ∧ Id run.1.2 = "k1"
  ∧ ¬ failsWithTimeout Script.translate Script.aclPackage factory
                       (Script.config "foo" []) [].
Proof.
  split; [reflexivity|]. split.
  { intros i _. do 2 (destruct i as [|i]; [vm_compute; discriminate|]).
    change (GetKafkaByIdExecute _ _ _)
      with (Script.fetch [Script.found "accepted"; Script.found "failed"] (S (S i)) "k1").
    unfold Script.fetch. rewrite (lookup_ge_None_2 _ (S (S i))) by (simpl; lia).
    vm_compute. discriminate. }
  split; [reflexivity|]. split; [reflexivity|].
  intros (lastState & Hrun). vm_compute in Hrun. discriminate.
Qed.

(** C1 as stated fails: with room for 240 refresh rounds before the
    timeout, an instance reported as failed by the first fetch ends create
    after that one fetch, with an unexpected-state error and not with a
    timeout. *)
Lemma failed_status_is_not_polled_until_timeout :
  let factory := Script.services [Script.found "failed"] Script.deleteAccepted None 240 in
  let run := kafka.kafkaCreate Script.translate Script.aclPackage factory
                               (Script.config "foo" []) [] in
  run.1.1 = Returned [UnexpectedStateError None "failed" ["ready"]]
  ∧ gets run.2 = 1
  ∧ rounds factory (schema.Timeout (Script.config "foo" [])) = 240
  ∧ ¬ pollsUntilTimeout Script.translate Script.aclPackage factory
                        (Script.config "foo" []) [].
Proof.
  split; [reflexivity|]. split; [reflexivity|]. split; [reflexivity|].
  intros (lastState & Hrun & _). vm_compute in Hrun. discriminate.
Qed.

(* ===================================================================== *)
(** * createACLForKafka                                                   *)
(* ===================================================================== *)

Lemma resolveAdmin_cases (k : KafkaRequest) (err : option error) :
  (∃ e, clients.resolveAdmin k err = (None, None, Some e))
  ∨ (∃ client, clients.resolveAdmin k err = (Some client, Some k, None)).
Proof.
  unfold clients.resolveAdmin.
  destruct (kafkamgmtv1errors.IsAPIError err _) eqn:Hapi.
  { apply IsAPIError_is_error in Hapi. destruct err; [|done]. left. by eexists. }
  repeat (match goal with
          | |- context [if ?b then _ else _] => destruct b; [left; by eexists|]
          end).
  right. by eexists.
Qed.

Lemma submitted_app (w1 w2 : World) : submitted (w1 ++ w2) = submitted w1 ++ submitted w2.
Proof. unfold submitted. apply omap_app. Qed.

Lemma applied_app (w1 w2 : World) : applied (w1 ++ w2) = applied w1 ++ applied w2.
Proof. unfold applied. apply omap_app. Qed.

Section Acl.

Variable acl : AclPackage.
Variable factory : Factory.
Variable response : KafkaRequest.

(** The three ways one submission can go: no admin client (nothing is
    sent), the binding sent and refused, the binding sent and accepted. *)
Lemma submitBinding_cases (b : AclBinding) (w : World) :
  (∃ e, kafka.submitBinding factory response b w
        = (Returned (Some e), w ++ [CallGetKafkaById (GetId response)]))
  ∨ (∃ url e, kafka.submitBinding factory response b w
              = (Returned (Some e),
                 w ++ [CallGetKafkaById (GetId response); CallCreateAcl url b false]))
  ∨ (∃ url, kafka.submitBinding factory response b w
            = (Returned None,
               w ++ [CallGetKafkaById (GetId response); CallCreateAcl url b true])).
Proof.
  unfold kafka.submitBinding, clients.KafkaAdmin.
  destruct (GetKafkaByIdExecute _ _ _) as [[k resp] err].
  destruct (resolveAdmin_cases k err) as [[e ->] | [client ->]].
  - left. by eexists.
  - right.
    destruct (CreateAclExecute _ _ _ _) as [r [e|]].
    + left. exists (BaseURL client), e. by rewrite <- app_assoc.
    + right. exists (BaseURL client). by rewrite <- app_assoc.
Qed.

(** Whatever the list and the services: either every binding was sent
    and accepted, in list order, or the loop stopped at some binding [k]
    with the error of its submission, the bindings before [k] are the
    ones accepted, and nothing after [k] was sent. *)
Lemma aclLoop_spec (aclConfig : list Value) (bs : list AclBinding) :
  Forall2 (λ element b, kafka.bindingOf acl factory element = inl b) aclConfig bs →
  ∀ w,
    let run := kafka.aclLoop acl factory response aclConfig w in
    (run.1 = Returned None
     ∧ applied run.2 = applied w ++ bs
     ∧ submitted run.2 = submitted w ++ bs)
    ∨ (∃ k b err wk,
         bs !! k = Some b
         ∧ kafka.aclLoop acl factory response (take k aclConfig) w = (Returned None, wk)
         ∧ kafka.submitBinding factory response b wk = (Returned (Some err), run.2)
         ∧ run.1 = Returned (Some err)
         ∧ applied run.2 = applied w ++ take k bs
         ∧ (submitted run.2 = submitted w ++ take k bs
            ∨ submitted run.2 = submitted w ++ take (S k) bs)).
Proof.
  induction 1 as [|element b aclConfig bs Hb Hrest IH]; intros w; simpl.
  - left. by rewrite !app_nil_r.
  - rewrite Hb.
    destruct (submitBinding_cases b w) as [[e Hs] | [(url & e & Hs) | [url Hs]]].
    + right. exists 0, b, e, w. rewrite Hs. simpl.
      rewrite applied_app, submitted_app. simpl. rewrite !app_nil_r.
      repeat split; try done. by left.
    + right. exists 0, b, e, w. rewrite Hs. simpl.
      rewrite applied_app, submitted_app. simpl. rewrite !app_nil_r.
      repeat split; try done. by right.
    + rewrite Hs.
      destruct (IH (w ++ [CallGetKafkaById (GetId response); CallCreateAcl url b true]))
        as [(Hr & Ha & Hsub) | (k & b' & e & wk & Hk & Hpre & Hstep & Hr & Ha & Hsub)].
      * left. rewrite applied_app in Ha. rewrite submitted_app in Hsub.
        simpl in Ha, Hsub. rewrite <- app_assoc in Ha, Hsub. done.
      * right. exists (S k), b', e, wk.
        rewrite applied_app in Ha. rewrite submitted_app in Hsub.
        simpl in Ha, Hsub.
        split; [done|]. split; [by simpl; rewrite Hb, Hs|].
        split; [done|]. split; [done|].
        split; [by rewrite <- app_assoc in Ha|].
        destruct Hsub as [Hsub | Hsub]; rewrite <- app_assoc in Hsub; [by left|by right].
Qed.

(** The loop only adds calls to the log. *)
Lemma aclLoop_extends (aclConfig : list Value) :
  ∀ w, w `prefix_of` (kafka.aclLoop acl factory response aclConfig w).2.
Proof.
  induction aclConfig as [|element rest IH]; intros w; simpl; [done|].
  destruct (kafka.bindingOf acl factory element) as [b|e]; [|done].
  destruct (submitBinding_cases b w) as [[e Hs] | [(url & e & Hs) | [url Hs]]];
    rewrite Hs.
  - by apply prefix_app_r.
  - by apply prefix_app_r.
  - etrans; [|apply IH]. by apply prefix_app_r.
Qed.

End Acl.

(** The case the specification names: of three bindings the second is
    refused. Create fails with the error of the second submission, the
    first binding is the only one applied, and the third is never
    sent. *)
Example three_bindings_second_refused :
  let run := kafka.kafkaCreate Script.translate Script.aclPackage secondRefused
               (Script.config "foo" threeRules) [] in
  run.1.1 = Returned [GenericOpenAPIError "400 Bad Request" None]
  ∧ applied run.2 = [Script.binding "alice" "orders"]
  ∧ submitted run.2 = [Script.binding "alice" "orders"; Script.binding "bob" "payments"]
  ∧ Script.binding "carol" "audit" ∉ submitted run.2.
Proof.
  split; [reflexivity|]. split; [reflexivity|]. split; [reflexivity|].
  vm_compute. intros H.
  repeat (apply elem_of_cons in H as [H | H]; [discriminate|]).
  by apply elem_of_nil in H.
Qed.

(* ===================================================================== *)
(** * Validation in kafkaCreate                                           *)
(* ===================================================================== *)

Section Validation.

Variable GetAPIError : option Response → option error → option error.
Variable acl : AclPackage.
Variable factory : Factory.

Lemma createACLForKafka_extends (d : ResourceData) (response : KafkaRequest) (w : World) :
  w `prefix_of` (kafka.createACLForKafka acl factory d response w).2.
Proof.
  unfold kafka.createACLForKafka.
  destruct (Get ACLField d) as [| s | l | m]; simpl; try done.
  apply aclLoop_extends.
Qed.

(** Once the payload is built, the create request is the first call
    made. *)
Lemma kafkaCreate_issues_create (d : ResourceData) (w : World)
      (payload : KafkaRequestPayload) :
  kafka.mapResourceDataToKafkaPayload factory d = (Some payload, None) →
  (w ++ [CallCreateKafka payload])
    `prefix_of` (kafka.kafkaCreate GetAPIError acl factory d w).2.
Proof.
  intros Hmap. unfold kafka.kafkaCreate. rewrite Hmap.
  destruct (CreateKafkaExecute _ _) as [[kr resp] err].
  destruct (match err with Some _ => _ | None => _ end); [done|].
  rewrite createWait_unfold.
  pose proof (refreshLoop_extends
                (kafka.createStateConf GetAPIError factory
                   (SetId (kafkamgmtclient.Id kr) d) kr err) _ _
                (createRefresh_counting GetAPIError factory kr err) 20 1
                (rounds factory (schema.Timeout d)) 0 0
                {| Result := None; State := ""; Err := None |}
                (w ++ [CallCreateKafka payload])) as Hext.
  destruct (refreshLoop _ _ _ _ _ _ _ _) as [[[data [e|]]|msg] w1]; simpl in Hext;
    try done.
  { by destruct data. }
  destruct data as [response|]; [|done].
  destruct (kafka.setResourceDataFromKafkaData _ _) as [[e|] d1]; [done|].
  pose proof (createACLForKafka_extends d1 response w1) as Hacl.
  destruct (kafka.createACLForKafka _ _ _ _ _) as [[[e|]|msg] w2]; simpl in Hacl;
    by etrans.
Qed.

(** C5, as the code has it. Creation fails with a field error before
    any remote call is made when the value of [name] is not a string.
    An empty name is a string: it is put in the payload and the remote
    create request is issued with it. *)
Theorem kafkaCreate_checks_the_type_of_name (d : ResourceData) (w : World) :
  (asString (Get NameField d) = None →
   ∃ field, kafka.kafkaCreate GetAPIError acl factory d w
            = (Returned [kafka.fieldNotFoundInSchema factory field], d, w))
  ∧ (∀ cloudProvider region,
       Get CloudProviderField d = VString cloudProvider →
       Get RegionField d = VString region →
       Get NameField d = VString "" →
       (w ++ [CallCreateKafka {| payloadName := "";
                                 payloadCloudProvider := Some cloudProvider;
                                 payloadRegion := Some region |}])
         `prefix_of` (kafka.kafkaCreate GetAPIError acl factory d w).2).
Proof.
  split.
  - intros Hname. unfold kafka.kafkaCreate, kafka.mapResourceDataToKafkaPayload.
    destruct (asString (Get CloudProviderField d)); [|by eexists].
    destruct (asString (Get RegionField d)); [|by eexists].
    rewrite Hname. by eexists.
  - intros cloudProvider region Hc Hr Hn.
    apply kafkaCreate_issues_create.
    unfold kafka.mapResourceDataToKafkaPayload. by rewrite Hc, Hr, Hn.
Qed.

End Validation.

Lemma kafkaCreate_checks_the_type_of_name_witness :
  (∃ field, kafka.kafkaCreate Script.translate Script.aclPackage
              (Script.services [] Script.deleteAccepted None 3) nameIsAList []
            = (Returned [kafka.fieldNotFoundInSchema
                           (Script.services [] Script.deleteAccepted None 3) field],
               nameIsAList, []))
  ∧ ([] ++ [CallCreateKafka emptyNamePayload])
      `prefix_of` (kafka.kafkaCreate Script.translate Script.aclPackage
                     (Script.services [] Script.deleteAccepted None 3)
                     (Script.config "" []) []).2.
Proof.
  split.
  - apply (kafkaCreate_checks_the_type_of_name Script.translate Script.aclPackage
             (Script.services [] Script.deleteAccepted None 3) nameIsAList []).
    reflexivity.
  - apply (kafkaCreate_checks_the_type_of_name Script.translate Script.aclPackage
             (Script.services [] Script.deleteAccepted None 3) (Script.config "" []) []);
      reflexivity.
Defined.

(** C5 as stated fails: a configuration whose name is the empty string
    has every required field, the create request is sent with the empty
    name, and with services that accept it create succeeds. *)
Lemma empty_name_reaches_the_remote :
  let run := kafka.kafkaCreate Script.translate Script.aclPackage
               (Script.services [] Script.deleteAccepted None 3)
               (Script.config "" []) [] in
  Get NameField (Script.config "" []) = VString ""
  ∧ missingRequired (Script.config "" []) = []
  ∧ run.1.1 = Returned []
  ∧ run.2 = [CallCreateKafka emptyNamePayload; CallGetKafkaById "k1"].
Proof.
  split; [reflexivity|]. split; [vm_compute; reflexivity|].
  split; [reflexivity|reflexivity].
Qed.

(* ===================================================================== *)
(** * kafkaDelete                                                         *)
(* ===================================================================== *)

Section Delete.

Variable GetAPIError : option Response → option error → option error.
Variable factory : Factory.

Lemma deleteRefresh_counting (d : ResourceData) :
  counting (kafka.deleteRefresh GetAPIError factory d) (schema.Id d)
           (deleteScript GetAPIError factory d).
Proof.
  intros w. unfold deleteScript, kafka.deleteRefresh. rewrite gets_fetches.
  destruct (GetKafkaByIdExecute _ _ _) as [[data resp] err1].
  destruct err1 as [e1|]; [|done].
  destruct (string_eqb (Error e1) "404 Not Found"); [done|].
  by destruct (GetAPIError resp (Some e1)).
Qed.

Lemma deleteScript_fetch (d : ResourceData) (n : nat) :
  deleteScript GetAPIError factory d n
  = let '(data, resp, err1) := GetKafkaByIdExecute (KafkaMgmt factory) n (schema.Id d) in
    let finish : outcome RefreshResult :=
      match Status data with
      | Some status => Returned {| Result := Some data; State := status; Err := None |}
      | None => Panicked "nil pointer dereference"
      end in
    match err1 with
    | Some e1 =>
        if string_eqb (Error e1) "404 Not Found"
        then Returned {| Result := Some data; State := "404"; Err := None |}
        else match GetAPIError resp (Some e1) with
             | Some apiErr => hardError apiErr
             | None => finish
             end
    | None => finish
    end.
Proof.
  unfold deleteScript, kafka.deleteRefresh. rewrite gets_fetches.
  destruct (GetKafkaByIdExecute _ _ _) as [[data resp] err1].
  destruct err1 as [e1|]; [|done].
  destruct (string_eqb (Error e1) "404 Not Found"); [done|].
  by destruct (GetAPIError resp (Some e1)).
Qed.

Lemma deleteScript_pending (d : ResourceData) (g k : nat) :
  fetchesFind factory (schema.Id d) ["deprovision"; "deleting"] g k →
  ∀ i, i < k →
    pendingRound (kafka.deleteStateConf GetAPIError factory d)
                 (deleteScript GetAPIError factory d (g + i)).
Proof.
  intros Hf i Hi. destruct (Hf i Hi) as (data & resp & Hfetch & Hst).
  rewrite deleteScript_fetch, Hfetch.
  unfold GetStatus in Hst. destruct (Status data) as [status|]; simpl in Hst.
  - exists {| Result := Some data; State := status; Err := None |}.
    split; [done|]. split; [done|]. split; [by eexists|].
    split; [by apply strIn_true|].
    apply strIn_false. cbn [State Target kafka.deleteStateConf]. intros Ht.
    repeat (apply elem_of_cons in Hst as [Hst | Hst];
            [subst status;
             repeat (apply elem_of_cons in Ht as [Ht | Ht]; [discriminate|]);
             by apply elem_of_nil in Ht|]).
    by apply elem_of_nil in Hst.
  - repeat (apply elem_of_cons in Hst as [Hst | Hst]; [discriminate|]).
    by apply elem_of_nil in Hst.
Qed.

Lemma deleteWait_unfold (d : ResourceData) (w : World) :
  WaitForStateContext (rounds factory) (kafka.deleteStateConf GetAPIError factory d) w
  = refreshLoop (kafka.deleteStateConf GetAPIError factory d)
      20 1 (rounds factory (schema.Timeout d)) 0 0
      {| Result := None; State := ""; Err := None |} w.
Proof. reflexivity. Qed.

(** The three tests of delete that end in success with the identifier
    cleared: (1) a delete request whose error has the text "404 "; (2) a
    fetch, while polling, whose error has the text "404 Not Found" (after
    any number of fetches that found the instance deprovisioning or
    deleting); (3) a wait that fails with an error whose text contains
    "not found". *)
Lemma kafkaDelete_literal_tests (d : ResourceData) (w : World) :
  (∀ apiErr resp e,
     DeleteKafkaByIdExecute (KafkaMgmt factory) (schema.Id d) = (apiErr, resp, Some e) →
     Error e = "404 " →
     kafka.kafkaDelete GetAPIError factory d w
     = (Returned [], SetId "" d, w ++ [CallDeleteKafkaById (schema.Id d)]))
  ∧ (∀ apiErr resp k data resp' e1,
       DeleteKafkaByIdExecute (KafkaMgmt factory) (schema.Id d) = (apiErr, resp, None) →
       fetchesFind factory (schema.Id d) ["deprovision"; "deleting"] (gets w) k →
       GetKafkaByIdExecute (KafkaMgmt factory) (gets w + k) (schema.Id d)
       = (data, resp', Some e1) →
       Error e1 = "404 Not Found" →
       k < rounds factory (schema.Timeout d) →
       kafka.kafkaDelete GetAPIError factory d w
       = (Returned [], SetId "" d,
          w ++ [CallDeleteKafkaById (schema.Id d)] ++ fetches (schema.Id d) (S k)))
  ∧ (∀ apiErr resp data e w',
       DeleteKafkaByIdExecute (KafkaMgmt factory) (schema.Id d) = (apiErr, resp, None) →
       WaitForStateContext (rounds factory) (kafka.deleteStateConf GetAPIError factory d)
                           (w ++ [CallDeleteKafkaById (schema.Id d)])
       = (Returned (data, Some e), w') →
       strings.Contains (Error e) "not found" = true →
       kafka.kafkaDelete GetAPIError factory d w = (Returned [], SetId "" d, w')).
Proof.
  split; [|split].
  - intros apiErr resp e Hdel Htext. unfold kafka.kafkaDelete.
    rewrite Hdel, Htext. reflexivity.
  - intros apiErr resp k data resp' e1 Hdel Hf Hfetch Htext Hk.
    unfold kafka.kafkaDelete. rewrite Hdel, deleteWait_unfold.
    replace (rounds factory (schema.Timeout d))
      with (k + S (rounds factory (schema.Timeout d) - S k)) by lia.
    rewrite (refreshLoop_target (kafka.deleteStateConf GetAPIError factory d) _ _
               (deleteRefresh_counting d) 20 k _ _
               {| Result := Some data; State := "404"; Err := None |}).
    + by rewrite app_assoc.
    + rewrite gets_app. change (gets [CallDeleteKafkaById (schema.Id d)]) with 0.
      rewrite Nat.add_0_r. by apply deleteScript_pending.
    + done.
    + rewrite gets_app. change (gets [CallDeleteKafkaById (schema.Id d)]) with 0.
      rewrite Nat.add_0_r, deleteScript_fetch, Hfetch, Htext. reflexivity.
    + done.
    + by eexists.
    + reflexivity.
  - intros apiErr resp data e w' Hdel Hwait Htext. unfold kafka.kafkaDelete.
    rewrite Hdel, Hwait, Htext. reflexivity.
Qed.

End Delete.

Lemma kafkaDelete_literal_tests_run :
  kafka.kafkaDelete Script.translate
    (Script.services [] Script.deleteGone None 3) deleting []
  = (Returned [], SetId "" deleting, [CallDeleteKafkaById "k1"])
  ∧ kafka.kafkaDelete Script.translate
      (Script.services [Script.found "deprovision"; Script.found "deleting";
                        Script.gone "404 Not Found"] Script.deleteAccepted None 240)
      deleting []
    = (Returned [], SetId "" deleting, [CallDeleteKafkaById "k1"] ++ fetches "k1" 3)
  ∧ kafka.kafkaDelete Script.translate
      (Script.services [Script.found "deleting"; Script.gone "404 "]
                       Script.deleteAccepted None 240)
      deleting []
    = (Returned [], SetId "" deleting, [CallDeleteKafkaById "k1"] ++ fetches "k1" 2).
Proof.
  split; [|split].
  - eapply (proj1 (kafkaDelete_literal_tests Script.translate
              (Script.services [] Script.deleteGone None 3) deleting []));
      reflexivity.
  - eapply (proj1 (proj2 (kafkaDelete_literal_tests Script.translate
              (Script.services [Script.found "deprovision"; Script.found "deleting";
                                Script.gone "404 Not Found"] Script.deleteAccepted None 240)
              deleting [])) _ _ 2).
    + reflexivity.
    + fetches_found.
    + reflexivity.
    + reflexivity.
    + vm_compute. lia.
  - eapply (proj2 (proj2 (kafkaDelete_literal_tests Script.translate
              (Script.services [Script.found "deleting"; Script.gone "404 "]
                               Script.deleteAccepted None 240)
              deleting []))).
    + reflexivity.
    + reflexivity.
    + reflexivity.
Defined.

(** C3. The claim asks that every not-found report of the remote system
    ends delete with success and the identifier cleared. A delete request
    answered with the not-found error whose text is "404 Not Found" (the
    text that the polling of the same function and the destroy check of
    the tests take for not-found) is reported as a failure, and the
    identifier is kept: the test of line 135 compares with "404 " only.
    The same error on a fetch while polling ends delete with success. *)
Theorem kafkaDelete_misses_not_found_text :
  kafka.kafkaDelete Script.translate
    (Script.services [] deleteNotFoundText None 3) Script.created []
  = (Returned [errorString "404 Not Found"], Script.created, [CallDeleteKafkaById "k1"])
  ∧ schema.Id (kafka.kafkaDelete Script.translate
                 (Script.services [] deleteNotFoundText None 3) Script.created []).1.2
    = "k1"
  ∧ kafka.kafkaDelete Script.translate
      (Script.services [Script.gone "404 Not Found"] Script.deleteAccepted None 3)
      Script.created []
    = (Returned [], SetId "" Script.created,
       [CallDeleteKafkaById "k1"; CallGetKafkaById "k1"]).
Proof. split; [reflexivity|]. split; reflexivity. Qed.

(* ===================================================================== *)
(** * More on the field mappers                                           *)
(* ===================================================================== *)

Lemma hydrate_unfold (d : ResourceData) (response : KafkaRequest) :
  kafka.setResourceDataFromKafkaData d response = (None, hydrate d response).
Proof. unfold hydrate. by rewrite setResourceDataFromKafkaData_ok. Qed.

Lemma hydrate_attrs (d : ResourceData) (response : KafkaRequest) :
  attrs (hydrate d response)
  = <[VersionField := VString (GetVersion response)]>
   (<[KindField := VString (GetKind response)]>
   (<[IDField := VString (GetId response)]>
   (<[UpdatedAtField := VString (Format_RFC3339 (GetUpdatedAt response))]>
   (<[CreatedAtField := VString (Format_RFC3339 (GetCreatedAt response))]>
   (<[BootstrapServerHostField := VString (GetBootstrapServerHost response)]>
   (<[OwnerField := VString (GetOwner response)]>
   (<[StatusField := VString (GetStatus response)]>
   (<[HrefField := VString (GetHref response)]>
   (<[NameField := VString (GetName response)]>
   (<[RegionField := VString (GetRegion response)]>
   (<[CloudProviderField := VString (GetCloudProvider response)]> (attrs d)))))))))))).
Proof. unfold hydrate. by rewrite setResourceDataFromKafkaData_ok. Qed.

(** X1. After hydration each of the twelve fields of the resource reads
    back the value of the response it was set from (timestamps in
    RFC 3339), whatever the store held before. *)
Theorem hydrate_reads_back (d : ResourceData) (response : KafkaRequest) :
  Forall (λ key, ∃ v, responseField response key = Some v
                      ∧ Get key (hydrate d response) = VString v)
         hydratedFields.
Proof.
  unfold hydratedFields.
  repeat (apply Forall_cons; split;
          [eexists; split; [reflexivity|];
           apply Get_present; [by eexists|];
           rewrite hydrate_attrs; by simplify_map_eq|]).
  constructor.
Qed.

Lemma hydrate_id (d : ResourceData) (response : KafkaRequest) :
  schema.Id (hydrate d response) = schema.Id d.
Proof. unfold hydrate. by rewrite setResourceDataFromKafkaData_ok. Qed.

Lemma hydrate_timeout (d : ResourceData) (response : KafkaRequest) :
  schema.Timeout (hydrate d response) = schema.Timeout d.
Proof. unfold hydrate. by rewrite setResourceDataFromKafkaData_ok. Qed.

Lemma hydrate_get_other (d : ResourceData) (response : KafkaRequest) (key : string) :
  key ∉ hydratedFields → Get key (hydrate d response) = Get key d.
Proof.
  intros Hkey. unfold Get. rewrite hydrate_attrs.
  unfold hydratedFields in Hkey.
  repeat (apply not_elem_of_cons in Hkey as [? Hkey]).
  by rewrite !lookup_insert_ne.
Qed.

(** X2. Hydration touches nothing but the twelve fields: every other
    attribute (the ACL list among them) reads as before, and the
    identifier and the create timeout of the resource are kept. *)
Theorem hydrate_keeps_the_rest (d : ResourceData) (response : KafkaRequest) (key : string) :
  key ∉ hydratedFields →
  Get key (hydrate d response) = Get key d
  ∧ schema.Id (hydrate d response) = schema.Id d
  ∧ schema.Timeout (hydrate d response) = schema.Timeout d.
Proof.
  intros Hkey. split; [|split].
  - by apply hydrate_get_other.
  - apply hydrate_id.
  - apply hydrate_timeout.
Qed.

Lemma hydrate_keeps_the_rest_witness :
  Get ACLField (hydrate (Script.config "foo" threeRules) (Script.instance "k1" "ready"))
  = Get ACLField (Script.config "foo" threeRules)
  ∧ schema.Id (hydrate (Script.config "foo" threeRules) (Script.instance "k1" "ready"))
    = schema.Id (Script.config "foo" threeRules)
  ∧ schema.Timeout (hydrate (Script.config "foo" threeRules) (Script.instance "k1" "ready"))
    = schema.Timeout (Script.config "foo" threeRules).
Proof.
  apply (hydrate_keeps_the_rest (Script.config "foo" threeRules)
           (Script.instance "k1" "ready") ACLField).
  decided.
Defined.

(** X3. A later hydration replaces an earlier one completely: hydrating
    from a first response and then from a second leaves the store that
    hydrating from the second alone leaves. In particular hydrating twice
    from the same response changes nothing the second time. *)
Theorem hydrate_overwrites (d : ResourceData) (first second : KafkaRequest) :
  hydrate (hydrate d first) second = hydrate d second.
Proof.
  assert (Hattrs : attrs (hydrate (hydrate d first) second) = attrs (hydrate d second)).
  { rewrite !hydrate_attrs. apply map_eq. intros key.
    destruct (decide (key ∈ hydratedFields)) as [Hin | Hout].
    - unfold hydratedFields in Hin.
      repeat (apply elem_of_cons in Hin as [-> | Hin]; [by simplify_map_eq|]).
      by apply elem_of_nil in Hin.
    - unfold hydratedFields in Hout.
      repeat (apply not_elem_of_cons in Hout as [? Hout]).
      by rewrite !lookup_insert_ne. }
  pose proof (hydrate_id (hydrate d first) second) as Hid1.
  pose proof (hydrate_id d second) as Hid2.
  pose proof (hydrate_id d first) as Hid3.
  pose proof (hydrate_timeout (hydrate d first) second) as Ht1.
  pose proof (hydrate_timeout d second) as Ht2.
  pose proof (hydrate_timeout d first) as Ht3.
  unfold schema.Id, schema.Timeout in *.
  destruct (hydrate (hydrate d first) second) as [i1 a1 t1].
  destruct (hydrate d second) as [i2 a2 t2].
  simpl in *. congruence.
Qed.

(** X4. A configuration that gives only the name is mapped to a payload
    with the defaults of the schema: cloud provider aws and region
    us-east-1. *)
Theorem payload_has_the_schema_defaults (factory : Factory) (d : ResourceData)
        (name : string) :
  attrs d !! CloudProviderField = None →
  attrs d !! RegionField = None →
  attrs d !! NameField = Some (VString name) →
  kafka.mapResourceDataToKafkaPayload factory d
  = (Some {| payloadName := name; payloadCloudProvider := Some "aws";
             payloadRegion := Some "us-east-1" |}, None).
Proof.
  intros Hc Hr Hn. unfold kafka.mapResourceDataToKafkaPayload, Get.
  change (ResourceKafka !! CloudProviderField)
    with (Some {| Type_ := TypeString; Required := false;
                  Default := Some (VString "aws") |}).
  change (ResourceKafka !! RegionField)
    with (Some {| Type_ := TypeString; Required := false;
                  Default := Some (VString "us-east-1") |}).
  change (ResourceKafka !! NameField)
    with (Some {| Type_ := TypeString; Required := true; Default := None |}).
  rewrite Hc, Hr, Hn. reflexivity.
Qed.

Lemma payload_has_the_schema_defaults_witness :
  kafka.mapResourceDataToKafkaPayload
    (Script.services [] Script.deleteAccepted None 3) (Script.config "foo" [])
  = (Some fooPayload, None).
Proof.
  apply (payload_has_the_schema_defaults
           (Script.services [] Script.deleteAccepted None 3) (Script.config "foo" []) "foo");
    reflexivity.
Defined.

Lemma Get_string_field (d : ResourceData) (key : string) (sch : Schema) :
  wellTyped d →
  ResourceKafka !! key = Some sch → Type_ sch = TypeString →
  (∀ v, Default sch = Some v → hasType v TypeString = true) →
  ∃ s, Get key d = VString s.
Proof.
  intros Hwt Hsch Hty Hdef. unfold Get. rewrite Hsch.
  destruct (attrs d !! key) as [v|] eqn:Hv; simpl.
  - specialize (Hwt key v sch Hv Hsch). rewrite Hty in Hwt.
    destruct v; try discriminate. by eexists.
  - destruct (Default sch) as [v|] eqn:Hd; simpl.
    + specialize (Hdef v eq_refl). destruct v; try discriminate. by eexists.
    + rewrite Hty. by eexists.
Qed.

(** X5. On a store whose values have the types of the schema the mapper
    cannot fail: it always builds a payload, and the three
    field-not-found errors of the function are out of reach. *)
Theorem mapper_total_on_typed_stores (factory : Factory) (d : ResourceData) :
  wellTyped d →
  ∃ payload, kafka.mapResourceDataToKafkaPayload factory d = (Some payload, None).
Proof.
  intros Hwt. unfold kafka.mapResourceDataToKafkaPayload.
  destruct (Get_string_field d CloudProviderField _ Hwt eq_refl eq_refl) as [c ->].
  { by intros v [= <-]. }
  destruct (Get_string_field d RegionField _ Hwt eq_refl eq_refl) as [r ->].
  { by intros v [= <-]. }
  destruct (Get_string_field d NameField _ Hwt eq_refl eq_refl) as [n ->].
  { by intros v [=]. }
  simpl. by eexists.
Qed.

Lemma mapper_total_on_typed_stores_witness :
  ∃ payload,
    kafka.mapResourceDataToKafkaPayload
      (Script.services [] Script.deleteAccepted None 3)
      {| id := ""; attrs := ∅; timeoutCreate := DefaultTimeoutCreate |}
    = (Some payload, None).
Proof.
  apply (mapper_total_on_typed_stores
           (Script.services [] Script.deleteAccepted None 3)
           {| id := ""; attrs := ∅; timeoutCreate := DefaultTimeoutCreate |}).
  intros key v sch Hv. simpl in Hv. rewrite lookup_empty in Hv. discriminate.
Defined.

(* ===================================================================== *)
(** * More on kafkaRead                                                   *)
(* ===================================================================== *)

(** X6. Read makes exactly one remote call, the fetch of the stored
    identifier, and never changes the identifier or the create timeout of
    the resource, whatever the service answers. *)
Theorem kafkaRead_one_fetch_same_id
        (GetAPIError : option Response → option error → option error)
        (factory : Factory) (d : ResourceData) (w : World) :
  (kafka.kafkaRead GetAPIError factory d w).2 = w ++ [CallGetKafkaById (schema.Id d)]
  ∧ schema.Id (kafka.kafkaRead GetAPIError factory d w).1.2 = schema.Id d
  ∧ schema.Timeout (kafka.kafkaRead GetAPIError factory d w).1.2 = schema.Timeout d.
Proof.
  unfold kafka.kafkaRead.
  destruct (GetKafkaByIdExecute _ _ _) as [[response resp] err].
  destruct (match err with Some _ => _ | None => _ end); [done|].
  rewrite hydrate_unfold. simpl.
  by rewrite hydrate_id, hydrate_timeout.
Qed.

(** X7. When the fetch succeeds, and also when it fails with an error for
    which the translator gives nil, read reports no diagnostic and
    replaces the twelve fields by the values of the record returned with
    the fetch (the zero record after a failed fetch). *)
Theorem kafkaRead_hydrates
        (GetAPIError : option Response → option error → option error)
        (factory : Factory) (d : ResourceData) (w : World)
        (response : KafkaRequest) (resp : option Response) (err : option error) :
  GetKafkaByIdExecute (KafkaMgmt factory) (gets w) (schema.Id d) = (response, resp, err) →
  match err with Some _ => GetAPIError resp err | None => None end = None →
  kafka.kafkaRead GetAPIError factory d w
  = ([], hydrate d response, w ++ [CallGetKafkaById (schema.Id d)])
  ∧ Get StatusField (hydrate d response) = VString (GetStatus response)
  ∧ Get BootstrapServerHostField (hydrate d response)
    = VString (GetBootstrapServerHost response).
Proof.
  intros Hfetch Htr. split; [|split].
  - unfold kafka.kafkaRead. rewrite Hfetch, Htr, hydrate_unfold. reflexivity.
  - apply Get_present; [by eexists|]. rewrite hydrate_attrs. by simplify_map_eq.
  - apply Get_present; [by eexists|]. rewrite hydrate_attrs. by simplify_map_eq.
Qed.

Lemma kafkaRead_hydrates_witness :
  kafka.kafkaRead Script.translate
    (Script.services [Script.found "ready"] Script.deleteAccepted None 3)
    Script.created []
  = ([], hydrate Script.created (Script.instance "k1" "ready"), [CallGetKafkaById "k1"])
  ∧ Get StatusField (hydrate Script.created (Script.instance "k1" "ready"))
    = VString "ready"
  ∧ Get BootstrapServerHostField (hydrate Script.created (Script.instance "k1" "ready"))
    = VString "foo.kafka.example:443".
Proof.
  apply (kafkaRead_hydrates Script.translate
           (Script.services [Script.found "ready"] Script.deleteAccepted None 3)
           Script.created [] (Script.instance "k1" "ready") None None); reflexivity.
Defined.

(* ===================================================================== *)
(** * More on kafkaCreate                                                 *)
(* ===================================================================== *)

Section CreatePaths.

Variable GetAPIError : option Response → option error → option error.
Variable acl : AclPackage.
Variable factory : Factory.

(** Once a fetch finds the instance ready, the store is hydrated from
    that fetch and the outcome of create is the outcome of the ACL
    step. *)
Lemma kafkaCreate_ready (d : ResourceData) (w : World) (payload : KafkaRequestPayload)
      (kr : KafkaRequest) (resp : option Response) (k : nat)
      (response : KafkaRequest) (resp' : option Response) :
  kafka.mapResourceDataToKafkaPayload factory d = (Some payload, None) →
  CreateKafkaExecute (KafkaMgmt factory) payload = (kr, resp, None) →
  fetchesFind factory (kafkamgmtclient.Id kr) ["accepted"; "preparing"; "provisioning"]
              (gets w) k →
  GetKafkaByIdExecute (KafkaMgmt factory) (gets w + k) (kafkamgmtclient.Id kr)
  = (response, resp', None) →
  GetStatus response = "ready" →
  k < rounds factory (schema.Timeout d) →
  kafka.kafkaCreate GetAPIError acl factory d w
  = let d1 := hydrate (SetId (kafkamgmtclient.Id kr) d) response in
    match kafka.createACLForKafka acl factory d1 response
            (w ++ [CallCreateKafka payload] ++ fetches (kafkamgmtclient.Id kr) (S k)) with
    | (Panicked msg, w2) => (Panicked msg, d1, w2)
    | (Returned (Some err), w2) => (Returned (diag.FromErr err), d1, w2)
    | (Returned None, w2) => (Returned [], d1, w2)
    end.
Proof.
  intros Hmap Hcreate Hf Hfetch Hready Hk.
  unfold kafka.kafkaCreate. rewrite Hmap, Hcreate, createWait_unfold.
  replace (rounds factory (schema.Timeout d))
    with (k + S (rounds factory (schema.Timeout d) - S k)) by lia.
  rewrite (refreshLoop_target
             (kafka.createStateConf GetAPIError factory
                (SetId (kafkamgmtclient.Id kr) d) kr None) _ _
             (createRefresh_counting GetAPIError factory kr None) 20 k _ _
             {| Result := Some response; State := GetStatus response; Err := None |}).
  - cbn [Result]. rewrite hydrate_unfold. by rewrite app_assoc.
  - rewrite gets_app. change (gets [CallCreateKafka payload]) with 0.
    rewrite Nat.add_0_r. by apply createScript_pending.
  - done.
  - rewrite gets_app. change (gets [CallCreateKafka payload]) with 0.
    rewrite Nat.add_0_r. unfold createScript. by rewrite Hfetch.
  - done.
  - by eexists.
  - cbn [State]. rewrite Hready. reflexivity.
Qed.

(** X8. When the create call succeeds, the fetches find the instance
    pending and then ready within the timeout, and the configuration has
    no ACL rule, create succeeds: no diagnostic, the identifier is the one
    the create call returned, the status stored is ready, and exactly one
    create request and the fetches up to the ready one were made. *)
Theorem kafkaCreate_succeeds_when_ready
        (d : ResourceData) (w : World) (payload : KafkaRequestPayload)
        (kr : KafkaRequest) (resp : option Response) (k : nat)
        (response : KafkaRequest) (resp' : option Response) :
  kafka.mapResourceDataToKafkaPayload factory d = (Some payload, None) →
  CreateKafkaExecute (KafkaMgmt factory) payload = (kr, resp, None) →
  fetchesFind factory (kafkamgmtclient.Id kr) ["accepted"; "preparing"; "provisioning"]
              (gets w) k →
  GetKafkaByIdExecute (KafkaMgmt factory) (gets w + k) (kafkamgmtclient.Id kr)
  = (response, resp', None) →
  GetStatus response = "ready" →
  k < rounds factory (schema.Timeout d) →
  Get ACLField d = VList [] →
  let d1 := hydrate (SetId (kafkamgmtclient.Id kr) d) response in
  kafka.kafkaCreate GetAPIError acl factory d w
  = (Returned [], d1,
     w ++ [CallCreateKafka payload] ++ fetches (kafkamgmtclient.Id kr) (S k))
  ∧ schema.Id d1 = kafkamgmtclient.Id kr
  ∧ Get StatusField d1 = VString "ready".
Proof.
  intros Hmap Hcreate Hf Hfetch Hready Hk Hacl d1.
  assert (Hget := hydrate_get_other (SetId (kafkamgmtclient.Id kr) d) response ACLField
                    ltac:(decided)).
  assert (Hid := hydrate_id (SetId (kafkamgmtclient.Id kr) d) response).
  split; [|split].
  - rewrite (kafkaCreate_ready d w payload kr resp k response resp'); try done.
    cbv zeta. unfold d1, kafka.createACLForKafka. rewrite Hget.
    change (Get ACLField (SetId (kafkamgmtclient.Id kr) d)) with (Get ACLField d).
    rewrite Hacl. reflexivity.
  - exact Hid.
  - unfold d1. rewrite <- Hready.
    apply Get_present; [by eexists|]. rewrite hydrate_attrs. by simplify_map_eq.
Qed.

(** X9. When the instance got ready but the ACL step fails, create
    reports the error of the ACL step, yet nothing is taken back: the
    identifier of the created instance stays set and the store is
    hydrated with the ready instance. *)
Theorem kafkaCreate_acl_failure_keeps_instance
        (d : ResourceData) (w w2 : World) (payload : KafkaRequestPayload)
        (kr : KafkaRequest) (resp : option Response) (k : nat)
        (response : KafkaRequest) (resp' : option Response) (err : error) :
  kafka.mapResourceDataToKafkaPayload factory d = (Some payload, None) →
  CreateKafkaExecute (KafkaMgmt factory) payload = (kr, resp, None) →
  fetchesFind factory (kafkamgmtclient.Id kr) ["accepted"; "preparing"; "provisioning"]
              (gets w) k →
  GetKafkaByIdExecute (KafkaMgmt factory) (gets w + k) (kafkamgmtclient.Id kr)
  = (response, resp', None) →
  GetStatus response = "ready" →
  k < rounds factory (schema.Timeout d) →
  kafka.createACLForKafka acl factory
    (hydrate (SetId (kafkamgmtclient.Id kr) d) response) response
    (w ++ [CallCreateKafka payload] ++ fetches (kafkamgmtclient.Id kr) (S k))
  = (Returned (Some err), w2) →
  let d1 := hydrate (SetId (kafkamgmtclient.Id kr) d) response in
  kafka.kafkaCreate GetAPIError acl factory d w = (Returned [err], d1, w2)
  ∧ schema.Id d1 = kafkamgmtclient.Id kr
  ∧ Get StatusField d1 = VString "ready".
Proof.
  intros Hmap Hcreate Hf Hfetch Hready Hk Hacl d1.
  assert (Hid := hydrate_id (SetId (kafkamgmtclient.Id kr) d) response).
  split; [|split].
  - rewrite (kafkaCreate_ready d w payload kr resp k response resp'); try done.
    cbv zeta. by rewrite Hacl.
  - exact Hid.
  - unfold d1. rewrite <- Hready.
    apply Get_present; [by eexists|]. rewrite hydrate_attrs. by simplify_map_eq.
Qed.

(** X10. When the create call fails and the translator gives an error
    for it, create returns that error after this one remote call: no
    identifier is recorded, the store is unchanged and nothing is
    polled. *)
Theorem kafkaCreate_create_error_records_nothing
        (d : ResourceData) (w : World) (payload : KafkaRequestPayload)
        (kr : KafkaRequest) (resp : option Response) (err apiErr : error) :
  kafka.mapResourceDataToKafkaPayload factory d = (Some payload, None) →
  CreateKafkaExecute (KafkaMgmt factory) payload = (kr, resp, Some err) →
  GetAPIError resp (Some err) = Some apiErr →
  kafka.kafkaCreate GetAPIError acl factory d w
  = (Returned [apiErr], d, w ++ [CallCreateKafka payload]).
Proof.
  intros Hmap Hcreate Htr. unfold kafka.kafkaCreate.
  rewrite Hmap, Hcreate, Htr. reflexivity.
Qed.

End CreatePaths.

Lemma kafkaCreate_succeeds_when_ready_witness :
  let factory := Script.services [Script.found "accepted"; Script.found "provisioning";
                                  Script.found "ready"] Script.deleteAccepted None 240 in
  let d1 := hydrate (SetId "k1" (Script.config "foo" [])) (Script.instance "k1" "ready") in
  kafka.kafkaCreate Script.translate Script.aclPackage factory (Script.config "foo" []) []
  = (Returned [], d1, [] ++ [CallCreateKafka fooPayload] ++ fetches "k1" 3)
  ∧ schema.Id d1 = "k1"
  ∧ Get StatusField d1 = VString "ready".
Proof.
  apply (kafkaCreate_succeeds_when_ready Script.translate Script.aclPackage
           (Script.services [Script.found "accepted"; Script.found "provisioning";
                             Script.found "ready"] Script.deleteAccepted None 240)
           (Script.config "foo" []) [] fooPayload (Script.instance "k1" "accepted") None
           2 (Script.instance "k1" "ready") None).
  - reflexivity.
  - reflexivity.
  - fetches_found.
  - reflexivity.
  - reflexivity.
  - vm_compute. lia.
  - reflexivity.
Defined.

Lemma kafkaCreate_acl_failure_keeps_instance_witness :
  let d1 := hydrate (SetId "k1" (Script.config "foo" threeRules))
                    (Script.instance "k1" "ready") in
  kafka.kafkaCreate Script.translate Script.aclPackage secondRefused
                    (Script.config "foo" threeRules) []
  = (Returned [GenericOpenAPIError "400 Bad Request" None], d1,
     [CallCreateKafka fooPayload; CallGetKafkaById "k1"; CallGetKafkaById "k1";
      CallCreateAcl "https://admin.foo.kafka.example" (Script.binding "alice" "orders") true;
      CallGetKafkaById "k1";
      CallCreateAcl "https://admin.foo.kafka.example" (Script.binding "bob" "payments")
                    false])
  ∧ schema.Id d1 = "k1"
  ∧ Get StatusField d1 = VString "ready".
Proof.
  apply (kafkaCreate_acl_failure_keeps_instance Script.translate Script.aclPackage
           secondRefused (Script.config "foo" threeRules) [] _ fooPayload
           (Script.instance "k1" "accepted") None 0 (Script.instance "k1" "ready") None
           (GenericOpenAPIError "400 Bad Request" None)).
  - reflexivity.
  - reflexivity.
  - intros i Hi. lia.
  - reflexivity.
  - reflexivity.
  - vm_compute. lia.
  - reflexivity.
Defined.

Lemma kafkaCreate_create_error_records_nothing_witness :
  kafka.kafkaCreate Script.translate Script.aclPackage createRefused
                    (Script.config "foo" []) []
  = (Returned [errorString "400 Bad Request name is taken"], Script.config "foo" [],
     [] ++ [CallCreateKafka fooPayload]).
Proof.
  apply (kafkaCreate_create_error_records_nothing Script.translate Script.aclPackage
           createRefused (Script.config "foo" []) [] fooPayload kafkamgmtclient.zero
           (Some {| StatusCode := 400; Body := " name is taken" |})
           (GenericOpenAPIError "400 Bad Request" None)); reflexivity.
Defined.

(* ===================================================================== *)
(** * More on kafkaDelete                                                 *)
(* ===================================================================== *)

Lemma append_empty_r (s : string) : s +:+ "" = s.
Proof.
  induction s as [|c s IH]; [done|].
  change (String c (s +:+ "") = String c s). by rewrite IH.
Qed.

Section PollerPanic.

Variable conf : StateChangeConf.
Variable id : string.
Variable script : nat → outcome RefreshResult.
Hypothesis Hcount : counting (Refresh conf) id script.

(** Pending rounds, then a refresh that panics: the wait panics. *)
Lemma refreshLoop_panic (nfc k m : nat) (last : RefreshResult) (msg : string) (w : World) :
  (∀ i, i < k → pendingRound conf (script (gets w + i))) →
  Err last = None →
  script (gets w + k) = Panicked msg →
  refreshLoop conf nfc 1 (k + S m) 0 0 last w = (Panicked msg, w ++ fetches id (S k)).
Proof.
  intros Hpend Hlast Hres.
  destruct (refreshLoop_pending conf id script Hcount nfc k (S m) 0 last w Hpend Hlast)
    as (tick' & last' & Hl & Heq).
  rewrite Heq. cbn [refreshLoop].
  rewrite Hcount, gets_app, gets_fetches, Hres.
  by rewrite <- app_assoc, <- fetches_S_r.
Qed.

(** [k] pending rounds leave the loop where it was, [k] fetches later;
    the last result seen is the one the loop started with or has a
    pending state. *)
Lemma refreshLoop_pending_state (nfc k m : nat) :
  ∀ (tick : nat) (last : RefreshResult) (w : World),
    (∀ i, i < k → pendingRound conf (script (gets w + i))) →
    Err last = None →
    ∃ tick' last',
      Err last' = None
      ∧ (last' = last ∨ strIn (State last') (Pending conf) = true)
      ∧ refreshLoop conf nfc 1 (k + m) tick 0 last w
        = refreshLoop conf nfc 1 m tick' 0 last' (w ++ fetches id k).
Proof.
  induction k as [|k IH]; intros tick last w Hpend Hlast.
  - exists tick, last. split; [done|]. split; [by left|]. simpl. by rewrite app_nil_r.
  - destruct (Hpend 0) as (res & Hres & Herr & [obj Hobj] & Hp & Ht); [lia|].
    rewrite Nat.add_0_r in Hres.
    destruct (IH 0 res (w ++ [CallGetKafkaById id]))
      as (tick' & last' & Hl & Hstate & Heq).
    { intros i Hi. rewrite gets_app. change (gets [CallGetKafkaById id]) with 1.
      replace (gets w + 1 + i) with (gets w + S i) by lia. apply Hpend. lia. }
    { done. }
    exists tick', last'. split; [done|]. split.
    { right. by destruct Hstate as [-> | ?]. }
    change (S k + m) with (S (k + m)). cbn [refreshLoop].
    rewrite Hcount, Hres, Herr, Hobj.
    rewrite (scanTarget_miss _ _ _ _ _ Ht).
    unfold scanPending. rewrite Hp. simpl.
    rewrite Heq. by rewrite fetches_snoc.
Qed.

End PollerPanic.

Section DeletePaths.

Variable GetAPIError : option Response → option error → option error.
Variable factory : Factory.

(** X11. A delete request that fails with anything but the not-found
    text is reported with the text of the error followed by the reason of
    the error body (nothing when the reason is empty); the identifier is
    kept, so that the delete can be tried again, and nothing is
    polled. *)
Theorem kafkaDelete_request_error_keeps_id (d : ResourceData) (w : World)
        (apiErr : Error_) (resp : option Response) (e : error) :
  DeleteKafkaByIdExecute (KafkaMgmt factory) (schema.Id d) = (apiErr, resp, Some e) →
  Error e ≠ "404 " →
  kafka.kafkaDelete GetAPIError factory d w
  = (Returned [errorString (Error e +:+ Reason apiErr)], d,
     w ++ [CallDeleteKafkaById (schema.Id d)]).
Proof.
  intros Hdel Htext. unfold kafka.kafkaDelete. rewrite Hdel.
  apply string_eqb_false in Htext. rewrite Htext.
  destruct (string_eqb (Reason apiErr) "") eqn:Hreason; simpl; [|done].
  apply string_eqb_true in Hreason. by rewrite Hreason, append_empty_r.
Qed.

(** A wait that fails with an error whose text does not contain "not
    found" makes delete fail with that error wrapped in the message that
    names the instance, and the identifier is kept. *)
Lemma kafkaDelete_wait_error (d : ResourceData) (w w' : World)
      (apiErr : Error_) (resp : option Response)
      (data : option KafkaRequest) (e : error) :
  DeleteKafkaByIdExecute (KafkaMgmt factory) (schema.Id d) = (apiErr, resp, None) →
  WaitForStateContext (rounds factory) (kafka.deleteStateConf GetAPIError factory d)
                      (w ++ [CallDeleteKafkaById (schema.Id d)])
  = (Returned (data, Some e), w') →
  strings.Contains (Error e) "not found" = false →
  kafka.kafkaDelete GetAPIError factory d w
  = (Returned [withMessage ("Error waiting for example instance ("
                              +:+ schema.Id d +:+ ") to be deleted") e], d, w').
Proof.
  intros Hdel Hwait Htext. unfold kafka.kafkaDelete.
  rewrite Hdel, Hwait, Htext. reflexivity.
Qed.

(** X12. When every fetch that fits in the timeout finds the instance
    still deprovisioning or deleting, delete fails with the timeout
    error of the poller, wrapped in the message that names the instance,
    and keeps the identifier, provided the text of that timeout error
    does not contain "not found". The last state the error reports is
    empty (no round fitted in the timeout) or one of the two pending
    states. *)
Theorem kafkaDelete_timeout_keeps_id (d : ResourceData) (w : World)
        (apiErr : Error_) (resp : option Response) :
  DeleteKafkaByIdExecute (KafkaMgmt factory) (schema.Id d) = (apiErr, resp, None) →
  fetchesFind factory (schema.Id d) ["deprovision"; "deleting"] (gets w)
              (rounds factory (schema.Timeout d)) →
  Forall (λ lastState,
            strings.Contains
              (Error (TimeoutError None lastState (schema.Timeout d) ["deleted"; "404"]))
              "not found" = false)
         [""; "deprovision"; "deleting"] →
  ∃ lastState,
    lastState ∈ [""; "deprovision"; "deleting"]
    ∧ kafka.kafkaDelete GetAPIError factory d w
      = (Returned [withMessage ("Error waiting for example instance ("
                                  +:+ schema.Id d +:+ ") to be deleted")
                     (TimeoutError None lastState (schema.Timeout d) ["deleted"; "404"])],
         d,
         w ++ [CallDeleteKafkaById (schema.Id d)]
           ++ fetches (schema.Id d) (rounds factory (schema.Timeout d))).
Proof.
  intros Hdel Hf Htext.
  destruct (refreshLoop_pending_state
              (kafka.deleteStateConf GetAPIError factory d) _ _
              (deleteRefresh_counting GetAPIError factory d) 20
              (rounds factory (schema.Timeout d)) 0 0
              {| Result := None; State := ""; Err := None |}
              (w ++ [CallDeleteKafkaById (schema.Id d)]))
    as (tick' & last' & Hl & Hstate & Heq).
  { rewrite gets_app. change (gets [CallDeleteKafkaById (schema.Id d)]) with 0.
    rewrite Nat.add_0_r. by apply deleteScript_pending. }
  { done. }
  assert (Hin : State last' ∈ [""; "deprovision"; "deleting"]).
  { destruct Hstate as [-> | Hp].
    - apply list_elem_of_here.
    - apply list_elem_of_further. by apply strIn_true in Hp. }
  exists (State last'). split; [done|].
  rewrite app_assoc.
  apply (kafkaDelete_wait_error d w _ apiErr resp None); [done| |].
  - rewrite deleteWait_unfold. rewrite Nat.add_0_r in Heq. rewrite Heq.
    simpl. by rewrite Hl.
  - rewrite Forall_forall in Htext. by apply Htext.
Qed.

(** X13. While delete polls, a fetch that finds the instance in a status
    that is neither pending (deprovision, deleting) nor a target (deleted,
    404), such as ready or failed, ends the polling at once with an
    unexpected-state error; delete fails with it, wrapped, and keeps the
    identifier. *)
Theorem kafkaDelete_fails_on_unexpected_status (d : ResourceData) (w : World)
        (apiErr : Error_) (resp : option Response) (k : nat)
        (data : KafkaRequest) (resp' : option Response) (status : string) :
  DeleteKafkaByIdExecute (KafkaMgmt factory) (schema.Id d) = (apiErr, resp, None) →
  fetchesFind factory (schema.Id d) ["deprovision"; "deleting"] (gets w) k →
  GetKafkaByIdExecute (KafkaMgmt factory) (gets w + k) (schema.Id d)
  = (data, resp', None) →
  Status data = Some status →
  status ∉ ["deprovision"; "deleting"] →
  status ∉ ["deleted"; "404"] →
  strings.Contains
    (Error (UnexpectedStateError None status ["deleted"; "404"])) "not found" = false →
  k < rounds factory (schema.Timeout d) →
  kafka.kafkaDelete GetAPIError factory d w
  = (Returned [withMessage ("Error waiting for example instance ("
                              +:+ schema.Id d +:+ ") to be deleted")
                           (UnexpectedStateError None status ["deleted"; "404"])],
     d, w ++ [CallDeleteKafkaById (schema.Id d)] ++ fetches (schema.Id d) (S k)).
Proof.
  intros Hdel Hf Hfetch Hst Hnp Hnt Htext Hk.
  rewrite app_assoc.
  eapply (kafkaDelete_wait_error d w _ apiErr resp (Some data)); [done| |done].
  rewrite deleteWait_unfold.
  replace (rounds factory (schema.Timeout d))
    with (k + S (rounds factory (schema.Timeout d) - S k)) by lia.
  apply (refreshLoop_unexpected (kafka.deleteStateConf GetAPIError factory d) _ _
           (deleteRefresh_counting GetAPIError factory d) 20 k _ _
           {| Result := Some data; State := status; Err := None |}).
  - rewrite gets_app. change (gets [CallDeleteKafkaById (schema.Id d)]) with 0.
    rewrite Nat.add_0_r. by apply deleteScript_pending.
  - done.
  - rewrite gets_app. change (gets [CallDeleteKafkaById (schema.Id d)]) with 0.
    rewrite Nat.add_0_r, deleteScript_fetch, Hfetch, Hst. reflexivity.
  - done.
  - by eexists.
  - by apply strIn_false.
  - by apply strIn_false.
  - done.
Qed.

(** X14. While delete polls, a fetch that brings a record without a
    status, either with no error or with an error that is not the
    not-found text and for which the translator gives nil, makes delete
    panic on the dereference of the status; the identifier is not
    cleared. *)
Theorem kafkaDelete_panics_without_status (d : ResourceData) (w : World)
        (apiErr : Error_) (resp : option Response) (k : nat)
        (data : KafkaRequest) (resp' : option Response) (err1 : option error) :
  DeleteKafkaByIdExecute (KafkaMgmt factory) (schema.Id d) = (apiErr, resp, None) →
  fetchesFind factory (schema.Id d) ["deprovision"; "deleting"] (gets w) k →
  GetKafkaByIdExecute (KafkaMgmt factory) (gets w + k) (schema.Id d)
  = (data, resp', err1) →
  Status data = None →
  match err1 with
  | Some e1 => Error e1 ≠ "404 Not Found" ∧ GetAPIError resp' (Some e1) = None
  | None => True
  end →
  k < rounds factory (schema.Timeout d) →
  kafka.kafkaDelete GetAPIError factory d w
  = (Panicked "nil pointer dereference", d,
     w ++ [CallDeleteKafkaById (schema.Id d)] ++ fetches (schema.Id d) (S k)).
Proof.
  intros Hdel Hf Hfetch Hst Herr Hk.
  unfold kafka.kafkaDelete. rewrite Hdel, deleteWait_unfold.
  replace (rounds factory (schema.Timeout d))
    with (k + S (rounds factory (schema.Timeout d) - S k)) by lia.
  rewrite (refreshLoop_panic (kafka.deleteStateConf GetAPIError factory d) _ _
             (deleteRefresh_counting GetAPIError factory d) 20 k _ _
             "nil pointer dereference").
  - by rewrite app_assoc.
  - rewrite gets_app. change (gets [CallDeleteKafkaById (schema.Id d)]) with 0.
    rewrite Nat.add_0_r. by apply deleteScript_pending.
  - done.
  - rewrite gets_app. change (gets [CallDeleteKafkaById (schema.Id d)]) with 0.
    rewrite Nat.add_0_r, deleteScript_fetch, Hfetch, Hst.
    destruct err1 as [e1|]; [|done].
    destruct Herr as [Htext Htr]. apply string_eqb_false in Htext.
    by rewrite Htext, Htr.
Qed.

(** X15. While delete polls, a fetch that finds the instance with the
    status deleted (after any number of fetches that found it
    deprovisioning or deleting) ends the polling with success: no
    diagnostic, and the identifier is cleared. *)
Theorem kafkaDelete_deleted_status_is_success (d : ResourceData) (w : World)
        (apiErr : Error_) (resp : option Response) (k : nat)
        (data : KafkaRequest) (resp' : option Response) :
  DeleteKafkaByIdExecute (KafkaMgmt factory) (schema.Id d) = (apiErr, resp, None) →
  fetchesFind factory (schema.Id d) ["deprovision"; "deleting"] (gets w) k →
  GetKafkaByIdExecute (KafkaMgmt factory) (gets w + k) (schema.Id d)
  = (data, resp', None) →
  Status data = Some "deleted" →
  k < rounds factory (schema.Timeout d) →
  kafka.kafkaDelete GetAPIError factory d w
  = (Returned [], SetId "" d,
     w ++ [CallDeleteKafkaById (schema.Id d)] ++ fetches (schema.Id d) (S k)).
Proof.
  intros Hdel Hf Hfetch Hst Hk.
  unfold kafka.kafkaDelete. rewrite Hdel, deleteWait_unfold.
  replace (rounds factory (schema.Timeout d))
    with (k + S (rounds factory (schema.Timeout d) - S k)) by lia.
  rewrite (refreshLoop_target (kafka.deleteStateConf GetAPIError factory d) _ _
             (deleteRefresh_counting GetAPIError factory d) 20 k _ _
             {| Result := Some data; State := "deleted"; Err := None |}).
  - by rewrite app_assoc.
  - rewrite gets_app. change (gets [CallDeleteKafkaById (schema.Id d)]) with 0.
    rewrite Nat.add_0_r. by apply deleteScript_pending.
  - done.
  - rewrite gets_app. change (gets [CallDeleteKafkaById (schema.Id d)]) with 0.
    rewrite Nat.add_0_r, deleteScript_fetch, Hfetch, Hst. reflexivity.
  - done.
  - by eexists.
  - reflexivity.
Qed.

(** X16. Whatever the services answer, delete first sends one delete
    request for the stored identifier; it clears the identifier exactly
    when it returns without a diagnostic, and in every other case (a
    diagnostic or a panic) it leaves the store as it was. *)
Theorem kafkaDelete_clears_id_iff_success (d : ResourceData) (w : World) :
  let run := kafka.kafkaDelete GetAPIError factory d w in
  (w ++ [CallDeleteKafkaById (schema.Id d)]) `prefix_of` run.2
  ∧ (run.1.1 = Returned [] → run.1.2 = SetId "" d)
  ∧ (run.1.1 ≠ Returned [] → run.1.2 = d).
Proof.
  unfold kafka.kafkaDelete.
  destruct (DeleteKafkaByIdExecute _ _) as [[apiErr resp] [e|]].
  - destruct (string_eqb (Error e) "404 "); [done|].
    destruct (negb (string_eqb (Reason apiErr) "")); done.
  - rewrite deleteWait_unfold.
    pose proof (refreshLoop_extends (kafka.deleteStateConf GetAPIError factory d) _ _
                  (deleteRefresh_counting GetAPIError factory d) 20 1
                  (rounds factory (schema.Timeout d)) 0 0
                  {| Result := None; State := ""; Err := None |}
                  (w ++ [CallDeleteKafkaById (schema.Id d)])) as Hext.
    destruct (refreshLoop _ _ _ _ _ _ _ _) as [[[data [e|]]|msg] w1]; simpl in Hext.
    + destruct (negb (strings.Contains (Error e) "not found")); done.
    + done.
    + done.
Qed.

End DeletePaths.

Lemma kafkaDelete_request_error_keeps_id_witness :
  kafka.kafkaDelete Script.translate (Script.services [] deleteForbidden None 3)
                    Script.created []
  = (Returned [errorString "403 Forbidden not the owner"], Script.created,
     [] ++ [CallDeleteKafkaById "k1"]).
Proof.
  apply (kafkaDelete_request_error_keeps_id Script.translate
           (Script.services [] deleteForbidden None 3) Script.created []
           {| Reason := " not the owner" |} None (GenericOpenAPIError "403 Forbidden" None)).
  - reflexivity.
  - decided.
Defined.

Lemma kafkaDelete_timeout_keeps_id_witness :
  ∃ lastState,
    lastState ∈ [""; "deprovision"; "deleting"]
    ∧ kafka.kafkaDelete Script.translate
        (Script.services [Script.found "deleting"] Script.deleteAccepted None 3)
        Script.created []
      = (Returned [withMessage "Error waiting for example instance (k1) to be deleted"
                     (TimeoutError None lastState DefaultTimeoutCreate ["deleted"; "404"])],
         Script.created, [] ++ [CallDeleteKafkaById "k1"] ++ fetches "k1" 3).
Proof.
  apply (kafkaDelete_timeout_keeps_id Script.translate
           (Script.services [Script.found "deleting"] Script.deleteAccepted None 3)
           Script.created [] {| Reason := "" |} None).
  - reflexivity.
  - fetches_found.
  - repeat (apply Forall_cons; split; [reflexivity|]). constructor.
Defined.

Lemma kafkaDelete_fails_on_unexpected_status_witness :
  kafka.kafkaDelete Script.translate
    (Script.services [Script.found "deleting"; Script.found "ready"]
                     Script.deleteAccepted None 240)
    Script.created []
  = (Returned [withMessage "Error waiting for example instance (k1) to be deleted"
                 (UnexpectedStateError None "ready" ["deleted"; "404"])],
     Script.created, [] ++ [CallDeleteKafkaById "k1"] ++ fetches "k1" 2).
Proof.
  apply (kafkaDelete_fails_on_unexpected_status Script.translate
           (Script.services [Script.found "deleting"; Script.found "ready"]
                            Script.deleteAccepted None 240)
           Script.created [] {| Reason := "" |} None 1 (Script.instance "k1" "ready") None
           "ready").
  - reflexivity.
  - fetches_found.
  - reflexivity.
  - reflexivity.
  - decided.
  - decided.
  - reflexivity.
  - vm_compute. lia.
Defined.

Lemma kafkaDelete_panics_without_status_witness :
  kafka.kafkaDelete Script.translate noStatus Script.created []
  = (Panicked "nil pointer dereference", Script.created,
     [] ++ [CallDeleteKafkaById "k1"] ++ fetches "k1" 1).
Proof.
  apply (kafkaDelete_panics_without_status Script.translate noStatus Script.created []
           {| Reason := "" |} None 0 kafkamgmtclient.zero None None).
  - reflexivity.
  - intros i Hi. lia.
  - reflexivity.
  - reflexivity.
  - exact I.
  - vm_compute. lia.
Defined.

Lemma kafkaDelete_deleted_status_is_success_witness :
  kafka.kafkaDelete Script.translate
    (Script.services [Script.found "deprovision"; Script.found "deleted"]
                     Script.deleteAccepted None 240)
    Script.created []
  = (Returned [], SetId "" Script.created,
     [] ++ [CallDeleteKafkaById "k1"] ++ fetches "k1" 2).
Proof.
  apply (kafkaDelete_deleted_status_is_success Script.translate
           (Script.services [Script.found "deprovision"; Script.found "deleted"]
                            Script.deleteAccepted None 240)
           Script.created [] {| Reason := "" |} None 1 (Script.instance "k1" "deleted") None).
  - reflexivity.
  - fetches_found.
  - reflexivity.
  - reflexivity.
  - vm_compute. lia.
Defined.

Lemma kafkaDelete_clears_id_iff_success_witness :
  (kafka.kafkaDelete Script.translate (Script.services [] Script.deleteGone None 3)
                     Script.created []).1.2 = SetId "" Script.created
  ∧ (kafka.kafkaDelete Script.translate (Script.services [] deleteForbidden None 3)
                       Script.created []).1.2 = Script.created.
Proof.
  split.
  - apply (kafkaDelete_clears_id_iff_success Script.translate
             (Script.services [] Script.deleteGone None 3) Script.created []).
    reflexivity.
  - apply (kafkaDelete_clears_id_iff_success Script.translate
             (Script.services [] deleteForbidden None 3) Script.created []).
    discriminate.
Defined.

(* ===================================================================== *)
(** * More on createACLForKafka and KafkaAdmin                            *)
(* ===================================================================== *)

Lemma aclCalls_app (w1 w2 : World) : aclCalls (w1 ++ w2) = aclCalls w1 + aclCalls w2.
Proof. unfold aclCalls. by rewrite List.filter_app, length_app. Qed.

Section AclPaths.

Variable acl : AclPackage.
Variable factory : Factory.
Variable response : KafkaRequest.

(** X17. A rule in which one of the six fields is missing or is not a
    string is rejected with the no-field-given error that names the first
    such field in the order principal, resource type, resource name,
    pattern type, operation type, permission type: every field before
    the one named is a string in the rule. *)
Theorem bindingOf_rejects_incomplete_rule (m : gmap string Value) :
  lacksField acl m →
  ∃ i field,
    ruleFields acl !! i = Some field
    ∧ field ∈ ruleFields acl
    ∧ m !! field ≫= asString = None
    ∧ (∀ j earlier, j < i → ruleFields acl !! j = Some earlier →
                    is_Some (m !! earlier ≫= asString))
    ∧ kafka.bindingOf acl factory (VMap m) = inr (kafka.noAclFieldGiven factory field).
Proof.
  intros (key & Hkey & Hnone). unfold kafka.bindingOf, ruleFields in *. simpl.
  destruct (m !! PrincipalField acl ≫= asString) eqn:H1;
    [|exists 0, (PrincipalField acl); split; [done|]; split; [in_list|];
      split; [done|]; split; [intros j earlier Hj; lia|done]].
  destruct (m !! ResourceTypeField acl ≫= asString) eqn:H2;
    [|exists 1, (ResourceTypeField acl); split; [done|]; split; [in_list|];
      split; [done|]; split; [|done];
      intros j earlier Hj Hlook;
      repeat (destruct j as [|j]; [injection Hlook as <-; eexists; eassumption|]); lia].
  destruct (m !! ResourceNameField acl ≫= asString) eqn:H3;
    [|exists 2, (ResourceNameField acl); split; [done|]; split; [in_list|];
      split; [done|]; split; [|done];
      intros j earlier Hj Hlook;
      repeat (destruct j as [|j]; [injection Hlook as <-; eexists; eassumption|]); lia].
  destruct (m !! PatternTypeField acl ≫= asString) eqn:H4;
    [|exists 3, (PatternTypeField acl); split; [done|]; split; [in_list|];
      split; [done|]; split; [|done];
      intros j earlier Hj Hlook;
      repeat (destruct j as [|j]; [injection Hlook as <-; eexists; eassumption|]); lia].
  destruct (m !! OperationTypeField acl ≫= asString) eqn:H5;
    [|exists 4, (OperationTypeField acl); split; [done|]; split; [in_list|];
      split; [done|]; split; [|done];
      intros j earlier Hj Hlook;
      repeat (destruct j as [|j]; [injection Hlook as <-; eexists; eassumption|]); lia].
  destruct (m !! PermissionTypeField acl ≫= asString) eqn:H6;
    [|exists 5, (PermissionTypeField acl); split; [done|]; split; [in_list|];
      split; [done|]; split; [|done];
      intros j earlier Hj Hlook;
      repeat (destruct j as [|j]; [injection Hlook as <-; eexists; eassumption|]); lia].
  exfalso.
  repeat (apply elem_of_cons in Hkey as [-> | Hkey]; [congruence|]).
  by apply elem_of_nil in Hkey.
Qed.

Lemma aclLoop_app (pre rest : list Value) :
  ∀ w,
    kafka.aclLoop acl factory response (pre ++ rest) w
    = match kafka.aclLoop acl factory response pre w with
      | (Returned None, w1) => kafka.aclLoop acl factory response rest w1
      | stop => stop
      end.
Proof.
  induction pre as [|element pre IH]; intros w; simpl; [done|].
  destruct (kafka.bindingOf acl factory element) as [b|e]; [|done].
  destruct (kafka.submitBinding factory response b w) as [[[e|]|msg] w1]; try done.
Qed.

(** X18. Rules are checked one at a time, as the loop reaches them: when
    the loop has gone through the rules before a rule that is rejected,
    the operation stops there with the error of that rule, makes no call
    for it, leaves the earlier bindings applied and never looks at the
    rules after it. *)
Theorem createACLForKafka_stops_at_rejected_rule
        (d : ResourceData) (pre post : list Value) (element : Value) (err : error)
        (w w1 : World) :
  Get ACLField d = VList (pre ++ element :: post) →
  kafka.aclLoop acl factory response pre w = (Returned None, w1) →
  kafka.bindingOf acl factory element = inr err →
  kafka.createACLForKafka acl factory d response w = (Returned (Some err), w1).
Proof.
  intros Hget Hpre Hbad. unfold kafka.createACLForKafka. rewrite Hget. simpl.
  rewrite aclLoop_app, Hpre. simpl. by rewrite Hbad.
Qed.

(** X19. When the ACL step succeeds, every rule of the list cost one
    fetch of the instance (the admin client is resolved anew for each
    rule) and one CreateAcl call, and every binding sent was accepted. *)
Theorem createACLForKafka_success_costs
        (d : ResourceData) (aclConfig : list Value) (w w' : World) :
  Get ACLField d = VList aclConfig →
  kafka.createACLForKafka acl factory d response w = (Returned None, w') →
  gets w' = gets w + length aclConfig
  ∧ aclCalls w' = aclCalls w + length aclConfig
  ∧ length (applied w') = length (applied w) + length aclConfig.
Proof.
  intros Hget. unfold kafka.createACLForKafka. rewrite Hget. simpl. clear Hget.
  revert w. induction aclConfig as [|element rest IH]; intros w; simpl.
  - intros [= <-]. lia.
  - destruct (kafka.bindingOf acl factory element) as [b|e]; [|done].
    destruct (submitBinding_cases factory response b w)
      as [[e Hs] | [(url & e & Hs) | [url Hs]]]; rewrite Hs; [done|done|].
    intros Hrest. apply IH in Hrest as (Hg & Ha & Hp).
    rewrite gets_app in Hg. rewrite aclCalls_app in Ha. rewrite applied_app in Hp.
    rewrite length_app in Hp. simpl in Hg, Ha, Hp.
    change (gets [CallGetKafkaById (GetId response); CallCreateAcl url b true])
      with 1 in Hg.
    change (aclCalls [CallGetKafkaById (GetId response); CallCreateAcl url b true])
      with 1 in Ha.
    lia.
Qed.

End AclPaths.

(** X20. [KafkaAdmin] gives a client whenever the fetch did not fail
    with the service error KAFKAS-MGMT-7, the status of the fetched
    record is none of accepted, provisioning, failed, deprovision and
    deleting (preparing is let through), and its bootstrap host is not
    empty: the client is bound to the admin URL of the record, the record
    is returned with it, and any other error of the fetch is dropped. *)
Theorem KafkaAdmin_gives_client
        (factory : Factory) (instanceID : string) (w : World)
        (kafkaInstance : KafkaRequest) (resp : option Response) (err : option error) :
  GetKafkaByIdExecute (KafkaMgmt factory) (gets w) instanceID = (kafkaInstance, resp, err) →
  kafkamgmtv1errors.IsAPIError err kafkamgmtv1errors.ERROR_7 = false →
  ¬ notReady kafkaInstance →
  clients.KafkaAdmin factory instanceID w
  = ((Some {| BaseURL := GetAdminApiServerUrl kafkaInstance |}, Some kafkaInstance, None),
     w ++ [CallGetKafkaById instanceID]).
Proof.
  intros Hfetch Hapi Hready. unfold clients.KafkaAdmin. rewrite Hfetch.
  unfold clients.resolveAdmin. rewrite Hapi.
  unfold notReady in Hready.
  assert (Hst : ∀ s, s ∈ [clients.StatusAccepted; clients.StatusProvisioning;
                          clients.StatusFailed; clients.StatusDeprovision;
                          clients.StatusDeleting] →
                     string_eqb (GetStatus kafkaInstance) s = false).
  { intros s Hs. apply string_eqb_false. intros Heq. apply Hready. left. by rewrite Heq. }
  rewrite !Hst by (repeat first [apply list_elem_of_here | apply list_elem_of_further]).
  assert (Hb : string_eqb (GetBootstrapServerHost kafkaInstance) "" = false).
  { apply string_eqb_false. intros Heq. apply Hready. by right. }
  rewrite Hb. reflexivity.
Qed.

(** A rule that lacks the resource name and the permission type: the
    error names the resource name, the first of the two. *)
Lemma bindingOf_rejects_incomplete_rule_witness :
  ∃ i field,
    ruleFields Script.aclPackage !! i = Some field
    ∧ field ∈ ruleFields Script.aclPackage
    ∧ ruleWithoutTwo !! field ≫= asString = None
    ∧ (∀ j earlier, j < i → ruleFields Script.aclPackage !! j = Some earlier →
                    is_Some (ruleWithoutTwo !! earlier ≫= asString))
    ∧ kafka.bindingOf Script.aclPackage allAccepted (VMap ruleWithoutTwo)
      = inr (kafka.noAclFieldGiven allAccepted field).
Proof.
  apply (bindingOf_rejects_incomplete_rule Script.aclPackage allAccepted ruleWithoutTwo).
  exists "permission_type". split; [decided|reflexivity].
Defined.

Example incomplete_rule_names_the_first_field :
  kafka.bindingOf Script.aclPackage allAccepted (VMap ruleWithoutTwo)
  = inr (kafka.noAclFieldGiven allAccepted "resource_name").
Proof. reflexivity. Qed.

Lemma createACLForKafka_stops_at_rejected_rule_witness :
  kafka.createACLForKafka Script.aclPackage allAccepted
    (Script.config "foo" rulesWithABadOne) (Script.instance "k1" "ready") []
  = (Returned (Some (kafka.noAclFieldGiven allAccepted "permission_type")),
     [CallGetKafkaById "k1";
      CallCreateAcl "https://admin.foo.kafka.example" (Script.binding "alice" "orders")
                    true]).
Proof.
  apply (createACLForKafka_stops_at_rejected_rule Script.aclPackage allAccepted
           (Script.instance "k1" "ready") (Script.config "foo" rulesWithABadOne)
           [Script.rule "alice" "orders"] [Script.rule "carol" "audit"]
           (VMap ruleWithoutPermission) _ []); reflexivity.
Defined.

Lemma createACLForKafka_success_costs_witness :
  let w' := (kafka.createACLForKafka Script.aclPackage allAccepted
               (Script.config "foo" threeRules) (Script.instance "k1" "ready") []).2 in
  gets w' = gets [] + length threeRules
  ∧ aclCalls w' = aclCalls [] + length threeRules
  ∧ length (applied w') = length (applied []) + length threeRules.
Proof.
  apply (createACLForKafka_success_costs Script.aclPackage allAccepted
           (Script.instance "k1" "ready") (Script.config "foo" threeRules) threeRules []);
    reflexivity.
Defined.

Lemma KafkaAdmin_gives_client_witness :
  clients.KafkaAdmin
    (Script.services [Script.found "preparing"] Script.deleteAccepted None 3) "k1" []
  = ((Some {| BaseURL := "https://admin.foo.kafka.example" |},
      Some (Script.instance "k1" "preparing"), None),
     [] ++ [CallGetKafkaById "k1"]).
Proof.
  apply (KafkaAdmin_gives_client
           (Script.services [Script.found "preparing"] Script.deleteAccepted None 3)
           "k1" [] (Script.instance "k1" "preparing") None None).
  - reflexivity.
  - reflexivity.
  - decided.
Defined.

(* ===================================================================== *)
(** * The checks of the acceptance tests                                  *)
(* ===================================================================== *)

Section TestChecks.

Import terraform.

Variable GetAPIError : option Response → option error → option error.
Variable formatV : KafkaRequest → string.
Variable api : DefaultApi.

(** X21. The existence check passes exactly when the state has the
    resource with a non-empty identifier, the fetch of that identifier
    brings no error that the translator reports, and the record fetched
    has the status ready. When the resource is missing from the state or
    has no identifier the check fails without calling the service. *)
Theorem testAccCheckKafkaExists_passes_iff
        (resource : string) (resources : gmap string ResourceState) (w : World) :
  let run := kafkas.testAccCheckKafkaExists GetAPIError api resource resources w in
  (run.1 = Returned None ↔
   ∃ rs response resp err,
     resources !! resource = Some rs
     ∧ PrimaryID rs ≠ ""
     ∧ GetKafkaByIdExecute api (gets w) (PrimaryID rs) = (response, resp, err)
     ∧ match err with Some _ => GetAPIError resp err | None => None end = None
     ∧ Status response = Some "ready")
  ∧ (resources !! resource = None
     ∨ (∃ rs, resources !! resource = Some rs ∧ PrimaryID rs = "") →
     run.2 = w ∧ run.1 ≠ Returned None).
Proof.
  unfold kafkas.testAccCheckKafkaExists.
  destruct (resources !! resource) as [rs|] eqn:Hrs.
  - destruct (string_eqb (PrimaryID rs) "") eqn:Hid.
    + apply string_eqb_true in Hid. split.
      * split; [done|]. intros (rs' & ? & ? & ? & [= <-] & Hne & _). done.
      * intros _. done.
    + apply string_eqb_false in Hid.
      destruct (GetKafkaByIdExecute api (gets w) (PrimaryID rs)) as [[response resp] err]
        eqn:Hfetch.
      destruct (match err with Some _ => _ | None => _ end) as [apiErr|] eqn:Htr.
      * split.
        -- split; [done|].
           intros (rs' & r' & p' & e' & [= <-] & _ & Hf & Htr' & _).
           rewrite Hfetch in Hf. injection Hf as <- <- <-. congruence.
        -- intros [? | (rs' & [= <-] & ?)]; done.
      * destruct (Status response) as [status|] eqn:Hst.
        -- destruct (string_eqb status "ready") eqn:Hready; simpl.
           ++ apply string_eqb_true in Hready as ->. split.
              ** split; [|done]. intros _. by exists rs, response, resp, err.
              ** intros [? | (rs' & [= <-] & ?)]; done.
           ++ apply string_eqb_false in Hready. split.
              ** split; [done|].
                 intros (rs' & r' & p' & e' & [= <-] & _ & Hf & _ & Hst').
                 rewrite Hfetch in Hf. injection Hf as <- <- <-. congruence.
              ** intros [? | (rs' & [= <-] & ?)]; done.
        -- split.
           ++ split; [done|].
              intros (rs' & r' & p' & e' & [= <-] & _ & Hf & _ & Hst').
              rewrite Hfetch in Hf. injection Hf as <- <- <-. congruence.
           ++ intros [? | (rs' & [= <-] & ?)]; done.
  - split.
    + split; [done|]. intros (rs' & ? & ? & ? & ? & _). done.
    + intros _. done.
Qed.

Lemma testAccCheckKafkaDestroy_skips (pre rest : list ResourceState) (w : World) :
  Forall otherType pre →
  kafkas.testAccCheckKafkaDestroy GetAPIError formatV api (pre ++ rest) w
  = kafkas.testAccCheckKafkaDestroy GetAPIError formatV api rest w.
Proof.
  induction 1 as [|rs pre Hrs Hpre IH]; [done|].
  simpl. apply string_eqb_false in Hrs. by rewrite Hrs.
Qed.

(** X22. The destroy check looks at one Kafka resource only, the first
    one the range reaches: it makes exactly one fetch, for the identifier
    of that resource, and it passes exactly when that fetch fails with
    the text "404 Not Found". Kafka resources that come later in the
    range are never fetched. *)
Theorem testAccCheckKafkaDestroy_checks_first_kafka
        (pre post : list ResourceState) (rs : ResourceState) (w : World)
        (response : KafkaRequest) (resp : option Response) (err : option error) :
  Forall otherType pre →
  Type_rs rs = "rhoas_kafka" →
  GetKafkaByIdExecute api (gets w) (PrimaryID rs) = (response, resp, err) →
  let run := kafkas.testAccCheckKafkaDestroy GetAPIError formatV api
               (pre ++ rs :: post) w in
  run.2 = w ++ [CallGetKafkaById (PrimaryID rs)]
  ∧ (run.1 = None ↔ ∃ e, err = Some e ∧ Error e = "404 Not Found").
Proof.
  intros Hpre Hty Hfetch. cbv zeta. rewrite testAccCheckKafkaDestroy_skips by done.
  simpl. rewrite Hty, Hfetch. simpl.
  destruct err as [e|].
  - destruct (string_eqb (Error e) "404 Not Found") eqn:Htext.
    + apply string_eqb_true in Htext. split; [done|]. split; [|done].
      intros _. by exists e.
    + apply string_eqb_false in Htext.
      destruct (GetAPIError resp (Some e)); (split; [done|]);
        (split; [done|]); intros (e' & [= <-] & ?); done.
  - split; [done|]. split; [done|]. intros (e' & ? & _). done.
Qed.

(** X23. With no Kafka resource in the state the destroy check passes
    without calling the service. *)
Theorem testAccCheckKafkaDestroy_without_kafka
        (resources : list ResourceState) (w : World) :
  Forall otherType resources →
  kafkas.testAccCheckKafkaDestroy GetAPIError formatV api resources w = (None, w).
Proof.
  intros Hall.
  rewrite <- (app_nil_r resources), testAccCheckKafkaDestroy_skips by done.
  reflexivity.
Qed.

End TestChecks.

Lemma testAccCheckKafkaExists_passes_iff_witness :
  (kafkas.testAccCheckKafkaExists Script.translate
     (KafkaMgmt (Script.services [Script.found "ready"] Script.deleteAccepted None 3))
     "rhoas_kafka.test_kafka" testState []).1 = Returned None
  ∧ (kafkas.testAccCheckKafkaExists Script.translate
       (KafkaMgmt (Script.services [Script.found "ready"] Script.deleteAccepted None 3))
       "rhoas_kafka.other" testState []).2 = [].
Proof.
  split.
  - apply (testAccCheckKafkaExists_passes_iff Script.translate
             (KafkaMgmt (Script.services [Script.found "ready"] Script.deleteAccepted None 3))
             "rhoas_kafka.test_kafka" testState []).
    exists {| terraform.Type_rs := "rhoas_kafka"; terraform.PrimaryID := "k1" |},
           (Script.instance "k1" "ready"), None, None.
    split; [reflexivity|]. split; [discriminate|].
    split; [reflexivity|]. split; reflexivity.
  - apply (testAccCheckKafkaExists_passes_iff Script.translate
             (KafkaMgmt (Script.services [Script.found "ready"] Script.deleteAccepted None 3))
             "rhoas_kafka.other" testState []).
    left. reflexivity.
Defined.

Lemma testAccCheckKafkaDestroy_checks_first_kafka_witness :
  let run := kafkas.testAccCheckKafkaDestroy Script.translate showId
               (KafkaMgmt (Script.services [Script.gone "404 Not Found"]
                                           Script.deleteAccepted None 3))
               testResources [] in
  run.2 = [] ++ [CallGetKafkaById "k1"]
  ∧ (run.1 = None ↔
     ∃ e, Some (GenericOpenAPIError "404 Not Found" (Some "KAFKAS-MGMT-7")) = Some e
          ∧ Error e = "404 Not Found").
Proof.
  apply (testAccCheckKafkaDestroy_checks_first_kafka Script.translate showId
           (KafkaMgmt (Script.services [Script.gone "404 Not Found"]
                                       Script.deleteAccepted None 3))
           [ {| terraform.Type_rs := "rhoas_service_account"; terraform.PrimaryID := "sa1" |};
             {| terraform.Type_rs := "rhoas_topic"; terraform.PrimaryID := "t1" |} ]
           [ {| terraform.Type_rs := "rhoas_kafka"; terraform.PrimaryID := "k2" |} ]
           {| terraform.Type_rs := "rhoas_kafka"; terraform.PrimaryID := "k1" |} []
           kafkamgmtclient.zero (Some Script.notFound)).
  - repeat (apply Forall_cons; split; [discriminate|]). constructor.
  - reflexivity.
  - reflexivity.
Defined.

Lemma testAccCheckKafkaDestroy_without_kafka_witness :
  kafkas.testAccCheckKafkaDestroy Script.translate showId
    (KafkaMgmt (Script.services [] Script.deleteAccepted None 3))
    (take 2 testResources) [CallGetKafkaById "k1"]
  = (None, [CallGetKafkaById "k1"]).
Proof.
  apply (testAccCheckKafkaDestroy_without_kafka Script.translate showId
           (KafkaMgmt (Script.services [] Script.deleteAccepted None 3))
           (take 2 testResources) [CallGetKafkaById "k1"]).
  repeat (apply Forall_cons; split; [discriminate|]). constructor.
Defined.

(* ===================================================================== *)
(** * The identifier after kafkaCreate                                    *)
(* ===================================================================== *)

(** X24. Once the payload is built, create ends in one of two ways:
    either it stopped at the create call (the translator gave an error
    for it), with the store untouched and nothing but the create request
    sent, or the identifier of the resource is the identifier of the
    record the create call returned, whatever happened afterwards
    (timeout, unexpected status, failed ACL step, success). *)
Theorem kafkaCreate_id_is_untouched_or_created
        (GetAPIError : option Response → option error → option error)
        (acl : AclPackage) (factory : Factory) (d : ResourceData) (w : World)
        (payload : KafkaRequestPayload) (kr : KafkaRequest) (resp : option Response)
        (err : option error) :
  kafka.mapResourceDataToKafkaPayload factory d = (Some payload, None) →
  CreateKafkaExecute (KafkaMgmt factory) payload = (kr, resp, err) →
  let run := kafka.kafkaCreate GetAPIError acl factory d w in
  (run.1.2 = d ∧ run.2 = w ++ [CallCreateKafka payload] ∧ run.1.1 ≠ Returned [])
  ∨ schema.Id run.1.2 = kafkamgmtclient.Id kr.
Proof.
  intros Hmap Hcreate. unfold kafka.kafkaCreate. rewrite Hmap, Hcreate.
  destruct (match err with Some _ => _ | None => _ end); [by left|].
  right.
  destruct (WaitForStateContext _ _ _) as [[[data [e|]]|msg] w1]; simpl.
  - by destruct data.
  - destruct data as [response|]; [|done].
    rewrite hydrate_unfold.
    destruct (kafka.createACLForKafka _ _ _ _ _) as [[[e|]|msg] w2]; simpl;
      apply hydrate_id.
  - done.
Qed.

Lemma kafkaCreate_id_is_untouched_or_created_witness :
  let run := kafka.kafkaCreate Script.translate Script.aclPackage secondRefused
                               (Script.config "foo" threeRules) [] in
  (run.1.2 = Script.config "foo" threeRules
   ∧ run.2 = [] ++ [CallCreateKafka fooPayload] ∧ run.1.1 ≠ Returned [])
  ∨ schema.Id run.1.2 = kafkamgmtclient.Id (Script.instance "k1" "accepted").
Proof.
  apply (kafkaCreate_id_is_untouched_or_created Script.translate Script.aclPackage
           secondRefused (Script.config "foo" threeRules) [] fooPayload
           (Script.instance "k1" "accepted") None None); reflexivity.
Defined.

(* ===================================================================== *)
(** * createACLForKafka against the answers of the services               *)
(* ===================================================================== *)



Section AclServices.

Variable acl : AclPackage.
Variable factory : Factory.
Variable response : KafkaRequest.






End AclServices.

